(** * SecurePaste Python API client example: a shallow embedding

    The development follows [examples/python_example.py]: the class
    [SecurePasteClient] (nine methods, each one HTTP exchange wrapped in a
    [try] / [except requests.RequestException]), the helper
    [print_paste_info] and the driver [main].

    Python values are embedded as the type [value]; the methods run in a
    small monad that threads the list of requests sent so far and the lines
    printed on standard output, and that may raise a Python exception.

    A Python string is held as the bytes of its UTF-8 encoding, the way a
    string literal of this file holds its characters, a lone surrogate
    being the three bytes ED A0..BF 80..BF; slicing, indexing and [len]
    count characters, not bytes.

    The [requests] library is not part of the repository.  What the script
    relies on is written out here from the library's documented behaviour
    (requests 2.27 and later):
    - [Response.raise_for_status] raises [HTTPError] for a status code in
      400..599 and for no other;
    - the truth value of a [Response] is its [ok] attribute, i.e. "the
      status code is not in 400..599";
    - [Response.json] raises [requests.exceptions.JSONDecodeError], a
      subclass of [RequestException], when the body is not valid JSON;
    - a failed exchange raises a subclass of [RequestException], which may
      carry a response ([TooManyRedirects] does).
    The remote service, the JSON decoder and the encoding of standard
    output are parameters.  Outside the model are a failure of the decoder
    other than [JSONDecodeError], and a standard output that is closed or
    cannot encode the text of the script itself. *)

From Stdlib Require Import String Ascii ZArith List Bool Lia DecimalString.
Import ListNotations.
Open Scope string_scope.
Open Scope Z_scope.
Set Warnings "-register-all".

(** ** Python values *)

(** The values the script handles are decoded JSON documents and the
    literals of the script.  A float is kept as the two things the script
    can observe of it: whether it is nonzero, and its printed form. *)
Inductive value : Type :=
| PNone
| PBool (b : bool)
| PInt (n : Z)
| PFloat (nonzero : bool) (repr : string)
| PStr (s : string)
| PList (l : list value)
| PDict (d : list (string * value)).

(** A [dict] with string keys, in insertion order. *)
Definition dict : Type := list (string * value).

Fixpoint dict_get (k : string) (d : dict) : option value :=
  match d with
  | [] => None
  | (k', v) :: d' => if String.eqb k k' then Some v else dict_get k d'
  end.

(** [d[k] = v]: an existing key keeps its position, a new one goes last. *)
Fixpoint dict_set (k : string) (v : value) (d : dict) : dict :=
  match d with
  | [] => [(k, v)]
  | (k', v') :: d' =>
      if String.eqb k k' then (k', v) :: d' else (k', v') :: dict_set k v d'
  end.

(** [{**d, **extra}]: the items of [extra] are stored one by one. *)
Definition dict_update (d extra : dict) : dict :=
  fold_left (fun acc kv => dict_set (fst kv) (snd kv) acc) extra d.

Definition dict_has (k : string) (d : dict) : bool :=
  match dict_get k d with Some _ => true | None => false end.

Definition dict_keys (d : dict) : list string := map fst d.

(** Truth value testing ([if x:], [not x], [x and y]). *)
Definition truthy (v : value) : bool :=
  match v with
  | PNone => false
  | PBool b => b
  | PInt n => negb (n =? 0)
  | PFloat nz _ => nz
  | PStr s => negb (String.eqb s "")
  | PList l => match l with [] => false | _ => true end
  | PDict d => match d with [] => false | _ => true end
  end.

(** [x == 'literal'] for a string literal. *)
Definition py_eq_str (v : value) (s : string) : bool :=
  match v with
  | PStr s' => String.eqb s' s
  | _ => false
  end.

Definition str_of_Z (n : Z) : string := NilZero.string_of_int (Z.to_int n).

Fixpoint str_repeat (s : string) (n : nat) : string :=
  match n with
  | O => ""
  | S n' => s ++ str_repeat s n'
  end.

(** A continuation byte of UTF-8 (10xxxxxx).  A character is a byte that
    is not one, with the continuation bytes that follow it. *)
Definition is_continuation (c : ascii) : bool :=
  (128 <=? nat_of_ascii c)%nat && (nat_of_ascii c <? 192)%nat.

(** [s[:n]]: the first [n] characters of [s]. *)
Fixpoint str_take (n : nat) (s : string) : string :=
  match s with
  | EmptyString => ""
  | String c s' =>
      if is_continuation c then String c (str_take n s')
      else match n with
           | O => ""
           | S n' => String c (str_take n' s')
           end
  end.

(** [len(s)]: the number of characters of [s]. *)
Fixpoint str_len (s : string) : nat :=
  match s with
  | EmptyString => O
  | String c s' => if is_continuation c then str_len s' else S (str_len s')
  end.

(** The characters after the one that [cur] holds the first bytes of. *)
Fixpoint group_chars (cur : string) (s : string) : list string :=
  match s with
  | EmptyString => [cur]
  | String c s' =>
      if is_continuation c then group_chars (cur ++ String c "") s'
      else cur :: group_chars (String c "") s'
  end.

(** The characters of [s], each a string of length one for Python. *)
Definition str_chars (s : string) : list value :=
  map PStr match s with
           | EmptyString => []
           | String c s' => group_chars (String c "") s'
           end.

(** Whether a string holds a lone surrogate: the byte ED followed by a
    byte from A0 up. *)
Fixpoint has_lone_surrogate (s : string) : bool :=
  match s with
  | EmptyString => false
  | String c s' =>
      match s' with
      | EmptyString => false
      | String c' _ =>
          (Nat.eqb (nat_of_ascii c) 237 && (160 <=? nat_of_ascii c')%nat)
          || has_lone_surrogate s'
      end
  end.

(** A standard output in UTF-8: it encodes every line but one that holds
    a lone surrogate. *)
Definition utf8_accepts (line : string) : bool := negb (has_lone_surrogate line).

(** [s.rstrip("/")] *)
Fixpoint rstrip_slash (s : string) : string :=
  match s with
  | EmptyString => EmptyString
  | String c s' =>
      match rstrip_slash s' with
      | EmptyString => if Ascii.eqb c "/" then EmptyString else String c EmptyString
      | r => String c r
      end
  end.

(** Characters that a Rocq string literal cannot hold directly. *)
Definition dquote : string := String (ascii_of_nat 34) "".
Definition nl : string := String (ascii_of_nat 10) "".

(** ** HTTP exchanges as [requests] presents them *)

Inductive http_method : Type := GET | POST | PUT | DELETE.

Record Request : Type := mkRequest {
  req_method : http_method;
  req_url : string;
  req_params : option dict;     (* the [params=] argument, when given *)
  req_json : option value;      (* the [json=] argument, when given *)
  req_headers : list (string * string)
}.

Record Response : Type := mkResponse {
  status_code : Z;
  reason : string;
  resp_url : string;
  text : string
}.

(** [400 <= status_code < 600], the test of [raise_for_status]. *)
Definition is_error_status (r : Response) : bool :=
  (400 <=? status_code r) && (status_code r <? 600).

(** [Response.__bool__] returns [self.ok]. *)
Definition response_truthy (r : Response) : bool := negb (is_error_status r).

Inductive request_exception_kind : Type :=
| ConnectionError | Timeout | TooManyRedirects | OtherRequestError
| HTTPError | JSONDecodeError.

(** An instance of [requests.RequestException]: [str(e)] and [e.response]. *)
Record RequestException : Type := mkRequestException {
  exc_kind : request_exception_kind;
  exc_str : string;
  exc_response : option Response
}.

Inductive exn : Type :=
| RequestExc (e : RequestException)
| KeyError (k : string)
| TypeError (msg : string)
| AttributeError (msg : string)
| IndexError (msg : string)
| UnicodeEncodeError (object : string)
| SystemExit (code : Z).

(** What one call of [session.request] comes to. *)
Inductive Exchange : Type :=
| TransportError (e : RequestException)
| Reply (r : Response).

(** The result of [json.loads] on a response body: a value, or the
    [JSONDecodeError] that [Response.json] turns into a [RequestException].
    The other ways the decoder can fail (the interpreter's limit on the
    digits of an integer literal, its recursion limit) are outside the
    model. *)
Inductive Decoded : Type :=
| DecOk (v : value)
| DecErr (msg : string).

(** ** The monad of the script *)

Record World : Type := mkWorld {
  sent : list Request;
  stdout : list string
}.

Definition world0 : World := mkWorld [] [].

Inductive Outcome (A : Type) : Type :=
| Returns (a : A)
| Raises (e : exn).
Arguments Returns {A} a.
Arguments Raises {A} e.

Definition M (A : Type) : Type := World -> Outcome A * World.

Definition ret {A} (a : A) : M A := fun w => (Returns a, w).

Definition bind {A B} (m : M A) (f : A -> M B) : M B :=
  fun w =>
    match m w with
    | (Returns a, w') => f a w'
    | (Raises e, w') => (Raises e, w')
    end.

Definition raise {A} (e : exn) : M A := fun w => (Raises e, w).

Definition lift {A} (o : Outcome A) : M A := fun w => (o, w).

Declare Scope py_scope.
Delimit Scope py_scope with py.
Notation "x <- m ;; k" := (bind m (fun x => k))
  (at level 100, m at next level, right associativity) : py_scope.
Notation "m ;; k" := (bind m (fun _ => k))
  (at level 100, right associativity) : py_scope.
Open Scope py_scope.

(** [try: body except requests.RequestException as e: handler(e)] *)
Definition try_except {A} (body : M A) (handler : RequestException -> M A) : M A :=
  fun w =>
    match body w with
    | (Raises (RequestExc e), w') => handler e w'
    | r => r
    end.

(** [print(line)] for a line that standard output is taken to encode: the
    text of the script, a number, and the report of a handler, which is
    made of the parts of a url that was requested and of text that
    [requests] has decoded. *)
Definition print (line : string) : M unit :=
  fun w => (Returns tt, mkWorld (sent w) (stdout w ++ [line])).

(** [print(line)] for a line that shows decoded data.  The stream encodes
    the line before it writes any of it, and [accepts] tells whether it
    can: a stream in UTF-8 cannot encode a lone surrogate, which a JSON
    body can hold as an escape.  For a line that is refused, [print]
    raises [UnicodeEncodeError] and nothing is written. *)
Definition print_data (accepts : string -> bool) (line : string) : M unit :=
  if accepts line then print line else raise (UnicodeEncodeError line).

(** [sys.exit(code)] *)
Definition sys_exit {A} (code : Z) : M A := raise (SystemExit code).

(** The exit status of the interpreter when [body] is the whole program. *)
Definition exit_status {A} (r : Outcome A * World) : Z :=
  match fst r with
  | Returns _ => 0
  | Raises (SystemExit code) => code
  | Raises _ => 1
  end.

(** ** Operations on Python values used by the script *)

Definition type_name (v : value) : string :=
  match v with
  | PNone => "NoneType"
  | PBool _ => "bool"
  | PInt _ => "int"
  | PFloat _ _ => "float"
  | PStr _ => "str"
  | PList _ => "list"
  | PDict _ => "dict"
  end.

(** [v[k]] for a string key [k]. *)
Definition subscript (v : value) (k : string) : Outcome value :=
  match v with
  | PDict d =>
      match dict_get k d with
      | Some x => Returns x
      | None => Raises (KeyError k)
      end
  | PList _ => Raises (TypeError "list indices must be integers or slices, not str")
  | PStr _ => Raises (TypeError "string indices must be integers, not 'str'")
  | _ => Raises (TypeError ("'" ++ type_name v ++ "' object is not subscriptable"))
  end.

(** [v.get(k, default)]; [v.get(k)] is [py_get v k PNone]. *)
Definition py_get (v : value) (k : string) (default : value) : Outcome value :=
  match v with
  | PDict d =>
      match dict_get k d with
      | Some x => Returns x
      | None => Returns default
      end
  | _ => Raises (AttributeError ("'" ++ type_name v ++ "' object has no attribute 'get'"))
  end.

(** [v[:n]].  A string is sliced by character; slicing a dict fails
    ([TypeError] up to Python 3.11). *)
Definition slice_upto (v : value) (n : nat) : Outcome value :=
  match v with
  | PStr s => Returns (PStr (str_take n s))
  | PList l => Returns (PList (firstn n l))
  | PDict _ => Raises (TypeError "unhashable type: 'slice'")
  | _ => Raises (TypeError ("'" ++ type_name v ++ "' object is not subscriptable"))
  end.

(** [v[i]] for an integer literal [i >= 0]. *)
Definition index_int (v : value) (i : nat) : Outcome value :=
  match v with
  | PList l =>
      match nth_error l i with
      | Some x => Returns x
      | None => Raises (IndexError "list index out of range")
      end
  | PStr s =>
      match nth_error (str_chars s) i with
      | Some c => Returns c
      | None => Raises (IndexError "string index out of range")
      end
  | PDict _ => Raises (KeyError (str_of_Z (Z.of_nat i)))
  | _ => Raises (TypeError ("'" ++ type_name v ++ "' object is not subscriptable"))
  end.

(** [len(v)] *)
Definition py_len (v : value) : Outcome Z :=
  match v with
  | PStr s => Returns (Z.of_nat (str_len s))
  | PList l => Returns (Z.of_nat (List.length l))
  | PDict d => Returns (Z.of_nat (List.length d))
  | _ => Raises (TypeError ("object of type '" ++ type_name v ++ "' has no len()"))
  end.

(** The items a [for] loop visits. *)
Definition py_iter (v : value) : Outcome (list value) :=
  match v with
  | PList l => Returns l
  | PStr s => Returns (str_chars s)
  | PDict d => Returns (map (fun kv => PStr (fst kv)) d)
  | _ => Raises (TypeError ("'" ++ type_name v ++ "' object is not iterable"))
  end.

(** [for x in items: body(x)] *)
Fixpoint for_each {A} (items : list A) (body : A -> M unit) : M unit :=
  match items with
  | [] => ret tt
  | x :: rest => body x ;; for_each rest body
  end.

(** ** The client *)

Record SecurePasteClient : Type := mkClient {
  base_url : string;
  api_base : string;
  session_headers : list (string * string)
}.

(** [SecurePasteClient.__init__] *)
Definition SecurePasteClient_init (url : string) : SecurePasteClient :=
  let b := rstrip_slash url in
  mkClient b (b ++ "/api/pastes")
    [("Content-Type", "application/json");
     ("User-Agent", "SecurePaste-Python-Client/1.0")].

Definition default_base_url : string := "http://localhost:8080".

(** [Response.raise_for_status] *)
Definition raise_for_status (r : Response) : M unit :=
  if (400 <=? status_code r) && (status_code r <? 500) then
    raise (RequestExc (mkRequestException HTTPError
      (str_of_Z (status_code r) ++ " Client Error: " ++ reason r
         ++ " for url: " ++ resp_url r) (Some r)))
  else if (500 <=? status_code r) && (status_code r <? 600) then
    raise (RequestExc (mkRequestException HTTPError
      (str_of_Z (status_code r) ++ " Server Error: " ++ reason r
         ++ " for url: " ++ resp_url r) (Some r)))
  else ret tt.

Section Client.

(** The remote service: the outcome of the [n]-th exchange of the run
    (counting from 0) for the request made. *)
Variable net : nat -> Request -> Exchange.

(** [json.loads] *)
Variable json_loads : string -> Decoded.

(** [repr] of a list or a dict, as [str()] and f-strings print them. *)
Variable py_repr : value -> string.

(** Whether standard output can encode a line. *)
Variable accepts : string -> bool.

(** [str(v)], the conversion an f-string applies. *)
Definition py_str (v : value) : string :=
  match v with
  | PNone => "None"
  | PBool true => "True"
  | PBool false => "False"
  | PInt n => str_of_Z n
  | PFloat _ r => r
  | PStr s => s
  | PList _ | PDict _ => py_repr v
  end.

(** [self.session.request(method, url, params=..., json=...)] *)
Definition session_request (self : SecurePasteClient) (m : http_method)
    (url : string) (params : option dict) (json : option value) : M Response :=
  fun w =>
    let r := mkRequest m url params json (session_headers self) in
    let w' := mkWorld (sent w ++ [r]) (stdout w) in
    match net (List.length (sent w)) r with
    | TransportError e => (Raises (RequestExc e), w')
    | Reply resp => (Returns resp, w')
    end.

(** [Response.json] *)
Definition response_json (r : Response) : M value :=
  match json_loads (text r) with
  | DecOk v => ret v
  | DecErr msg => raise (RequestExc (mkRequestException JSONDecodeError msg None))
  end.

Definition create_paste (self : SecurePasteClient) (title content : value)
    (kwargs : dict) : M value :=
  let data := dict_update
                (dict_set "content" content (dict_set "title" title [])) kwargs in
  try_except
    (response <- session_request self POST (api_base self) None (Some (PDict data)) ;;
     raise_for_status response ;;
     response_json response)
    (fun e =>
       print ("Error creating paste: " ++ exc_str e) ;;
       match exc_response e with
       | Some r => if response_truthy r then print ("Response: " ++ text r) else ret tt
       | None => ret tt
       end ;;
       ret PNone).

Definition get_paste (self : SecurePasteClient) (paste_id password : value)
    : M value :=
  let params : dict := [] in
  let params := if truthy password then dict_set "password" password params
                else params in
  try_except
    (response <- session_request self GET (api_base self ++ "/" ++ py_str paste_id)
                   (Some params) None ;;
     raise_for_status response ;;
     response_json response)
    (fun e =>
       print ("Error retrieving paste " ++ py_str paste_id ++ ": " ++ exc_str e) ;;
       match exc_response e with
       | Some r => if response_truthy r then print ("Response: " ++ text r) else ret tt
       | None => ret tt
       end ;;
       ret PNone).

Definition update_paste (self : SecurePasteClient) (paste_id : value)
    (kwargs : dict) : M value :=
  try_except
    (response <- session_request self PUT (api_base self ++ "/" ++ py_str paste_id)
                   None (Some (PDict kwargs)) ;;
     raise_for_status response ;;
     response_json response)
    (fun e =>
       print ("Error updating paste " ++ py_str paste_id ++ ": " ++ exc_str e) ;;
       match exc_response e with
       | Some r => if response_truthy r then print ("Response: " ++ text r) else ret tt
       | None => ret tt
       end ;;
       ret PNone).

Definition delete_paste (self : SecurePasteClient) (paste_id : value) : M bool :=
  try_except
    (response <- session_request self DELETE
                   (api_base self ++ "/" ++ py_str paste_id) None None ;;
     raise_for_status response ;;
     ret true)
    (fun e =>
       print ("Error deleting paste " ++ py_str paste_id ++ ": " ++ exc_str e) ;;
       ret false).

Definition get_public_pastes (self : SecurePasteClient) (page size : value)
    : M value :=
  let params : dict := [("page", page); ("size", size)] in
  try_except
    (response <- session_request self GET (api_base self ++ "/public")
                   (Some params) None ;;
     raise_for_status response ;;
     response_json response)
    (fun e =>
       print ("Error getting public pastes: " ++ exc_str e) ;;
       ret PNone).

Definition search_pastes (self : SecurePasteClient) (query page size : value)
    : M value :=
  let params : dict := [("q", query); ("page", page); ("size", size)] in
  try_except
    (response <- session_request self GET (api_base self ++ "/search")
                   (Some params) None ;;
     raise_for_status response ;;
     response_json response)
    (fun e =>
       print ("Error searching pastes: " ++ exc_str e) ;;
       ret PNone).

Definition get_pastes_by_language (self : SecurePasteClient)
    (language page size : value) : M value :=
  let params : dict := [("page", page); ("size", size)] in
  try_except
    (response <- session_request self GET
                   (api_base self ++ "/language/" ++ py_str language)
                   (Some params) None ;;
     raise_for_status response ;;
     response_json response)
    (fun e =>
       print ("Error getting pastes for language " ++ py_str language ++ ": "
              ++ exc_str e) ;;
       ret PNone).

Definition get_statistics (self : SecurePasteClient) : M value :=
  try_except
    (response <- session_request self GET (api_base self ++ "/stats") None None ;;
     raise_for_status response ;;
     response_json response)
    (fun e =>
       print ("Error getting statistics: " ++ exc_str e) ;;
       ret PNone).

Definition health_check (self : SecurePasteClient) : M bool :=
  try_except
    (response <- session_request self GET (api_base self ++ "/health") None None ;;
     raise_for_status response ;;
     body <- response_json response ;;
     status <- lift (py_get body "status" PNone) ;;
     ret (py_eq_str status "UP"))
    (fun _ => ret false).

(** ** The driver *)

Definition print_paste_info (paste : value) : M unit :=
  if negb (truthy paste) then ret tt
  else
    id <- lift (subscript paste "id") ;;
    print_data accepts ("ID: " ++ py_str id) ;;
    title <- lift (subscript paste "title") ;;
    print_data accepts ("Title: " ++ py_str title) ;;
    language <- lift (py_get paste "language" (PStr "N/A")) ;;
    print_data accepts ("Language: " ++ py_str language) ;;
    author <- lift (py_get paste "authorName" (PStr "Anonymous")) ;;
    print_data accepts ("Author: " ++ py_str author) ;;
    visibility <- lift (subscript paste "visibility") ;;
    print_data accepts ("Visibility: " ++ py_str visibility) ;;
    views <- lift (subscript paste "viewCount") ;;
    print_data accepts ("Views: " ++ py_str views) ;;
    created <- lift (subscript paste "createdAt") ;;
    print_data accepts ("Created: " ++ py_str created) ;;
    expires <- lift (py_get paste "expiresAt" PNone) ;;
    (if truthy expires then
       expires_at <- lift (subscript paste "expiresAt") ;;
       print_data accepts ("Expires: " ++ py_str expires_at)
     else ret tt) ;;
    protected <- lift (py_get paste "passwordProtected" PNone) ;;
    (if truthy protected then print "Password Protected: Yes" else ret tt) ;;
    content <- lift (subscript paste "content") ;;
    preview <- lift (slice_upto content 100) ;;
    print_data accepts ("Content Preview: " ++ py_str preview ++ "...") ;;
    print (str_repeat "-" 50).

(** [x and x['content']], as the condition of an [if]. *)
Definition has_content (x : value) : M bool :=
  if truthy x then
    content <- lift (subscript x "content") ;;
    ret (truthy content)
  else ret false.

(** Steps 5 to 7 of [main]. *)
Definition main_retrieve (client : SecurePasteClient)
    (simple_paste_id protected_paste_id : value) : M unit :=
  print (nl ++ "5. Retrieving the simple paste") ;;
  retrieved <- get_paste client simple_paste_id PNone ;;
  (if truthy retrieved then
     print "✓ Paste retrieved successfully" ;;
     views <- lift (subscript retrieved "viewCount") ;;
     print_data accepts ("View count increased to: " ++ py_str views)
   else ret tt) ;;
  print (nl ++ "6. Attempting to retrieve protected paste without password") ;;
  failed_retrieval <- get_paste client protected_paste_id PNone ;;
  (if negb (truthy failed_retrieval) then
     print "✓ Correctly denied access without password"
   else ret tt) ;;
  print (nl ++ "7. Retrieving protected paste with password") ;;
  protected_retrieved <- get_paste client protected_paste_id (PStr "secret123") ;;
  (if truthy protected_retrieved then
     print "✓ Protected paste retrieved successfully with password"
   else ret tt).

(** Step 8 of [main]. *)
Definition main_update (client : SecurePasteClient) (simple_paste_id : value)
    : M unit :=
  print (nl ++ "8. Updating the simple paste") ;;
  updated <- update_paste client simple_paste_id
               [("title", PStr "Updated Hello World Example");
                ("content", PStr ("print(" ++ dquote
                    ++ "Hello, Updated World from Python!" ++ dquote ++ ")"))] ;;
  (if truthy updated then
     print "✓ Paste updated successfully" ;;
     title <- lift (subscript updated "title") ;;
     print_data accepts ("New title: " ++ py_str title)
   else ret tt).

(** Step 9 of [main]. *)
Definition main_search (client : SecurePasteClient) : M unit :=
  print (nl ++ "9. Searching for Python pastes") ;;
  search_results <- search_pastes client (PStr "Python") (PInt 0) (PInt 5) ;;
  found <- has_content search_results ;;
  if found then
    content <- lift (subscript search_results "content") ;;
    n <- lift (py_len content) ;;
    print ("✓ Found " ++ str_of_Z n ++ " Python-related pastes") ;;
    content <- lift (subscript search_results "content") ;;
    first <- lift (slice_upto content 2) ;;
    pastes <- lift (py_iter first) ;;
    for_each pastes print_paste_info
  else ret tt.

(** Step 10 of [main]. *)
Definition main_by_language (client : SecurePasteClient) : M unit :=
  print (nl ++ "10. Getting JavaScript pastes") ;;
  js_pastes <- get_pastes_by_language client (PStr "javascript") (PInt 0) (PInt 3) ;;
  found <- has_content js_pastes ;;
  if found then
    content <- lift (subscript js_pastes "content") ;;
    n <- lift (py_len content) ;;
    print ("✓ Found " ++ str_of_Z n ++ " JavaScript pastes")
  else ret tt.

(** Step 11 of [main]. *)
Definition main_public (client : SecurePasteClient) : M unit :=
  print (nl ++ "11. Getting recent public pastes") ;;
  public_pastes <- get_public_pastes client (PInt 0) (PInt 5) ;;
  found <- has_content public_pastes ;;
  if found then
    content <- lift (subscript public_pastes "content") ;;
    n <- lift (py_len content) ;;
    print ("✓ Retrieved " ++ str_of_Z n ++ " public pastes") ;;
    total <- lift (subscript public_pastes "totalElements") ;;
    print_data accepts ("Total public pastes: " ++ py_str total)
  else ret tt.

(** Step 12 of [main]. *)
Definition main_statistics (client : SecurePasteClient) : M unit :=
  print (nl ++ "12. Getting service statistics") ;;
  stats <- get_statistics client ;;
  if truthy stats then
    print "✓ Statistics retrieved successfully" ;;
    total <- lift (py_get stats "totalPastes" (PInt 0)) ;;
    print_data accepts ("Total pastes: " ++ py_str total) ;;
    public <- lift (py_get stats "publicPastes" (PInt 0)) ;;
    print_data accepts ("Public pastes: " ++ py_str public) ;;
    views <- lift (py_get stats "totalViews" (PInt 0)) ;;
    print_data accepts ("Total views: " ++ py_str views) ;;
    popular_langs <- lift (py_get stats "popularLanguages" (PList [])) ;;
    if truthy popular_langs then
      print "Popular languages:" ;;
      top <- lift (slice_upto popular_langs 5) ;;
      langs <- lift (py_iter top) ;;
      for_each langs (fun lang_data =>
        name <- lift (index_int lang_data 0) ;;
        count <- lift (index_int lang_data 1) ;;
        print_data accepts ("  - " ++ py_str name ++ ": " ++ py_str count ++ " pastes"))
    else ret tt
  else ret tt.

(** Step 13 of [main] and its last line. *)
Definition main_cleanup (client : SecurePasteClient)
    (simple_paste_id protected_paste_id : value) : M unit :=
  print (nl ++ "13. Cleaning up test pastes") ;;
  deleted <- delete_paste client simple_paste_id ;;
  (if deleted then print "✓ Simple paste deleted" else ret tt) ;;
  deleted <- delete_paste client protected_paste_id ;;
  (if deleted then print "✓ Protected paste deleted" else ret tt) ;;
  print (nl ++ "✓ Example completed successfully!").

(** Step 4 of [main] and everything after it. *)
Definition main_from_expiring (client : SecurePasteClient)
    (simple_paste_id protected_paste_id : value) : M unit :=
  print (nl ++ "4. Creating a paste that expires in 60 minutes") ;;
  expiring_paste <- create_paste client
    (PStr "Temporary Code Snippet")
    (PStr ("// This paste will expire in 60 minutes" ++ nl
           ++ "console.log('Temporary message');"))
    [("language", PStr "javascript"); ("expirationMinutes", PInt 60);
     ("visibility", PStr "PUBLIC")] ;;
  (if truthy expiring_paste then
     print "✓ Expiring paste created successfully" ;;
     print_paste_info expiring_paste
   else ret tt) ;;
  main_retrieve client simple_paste_id protected_paste_id ;;
  main_update client simple_paste_id ;;
  main_search client ;;
  main_by_language client ;;
  main_public client ;;
  main_statistics client ;;
  main_cleanup client simple_paste_id protected_paste_id.

(** Step 3 of [main] and everything after it. *)
Definition main_from_protected (client : SecurePasteClient)
    (simple_paste_id : value) : M unit :=
  print (nl ++ "3. Creating a password-protected paste") ;;
  protected_paste <- create_paste client
    (PStr "Secret Code")
    (PStr "const secret = 'This is a secret message!';")
    [("language", PStr "javascript"); ("visibility", PStr "UNLISTED");
     ("password", PStr "secret123")] ;;
  if truthy protected_paste then
    print "✓ Protected paste created successfully" ;;
    print_paste_info protected_paste ;;
    protected_paste_id <- lift (subscript protected_paste "id") ;;
    main_from_expiring client simple_paste_id protected_paste_id
  else
    print "✗ Failed to create protected paste".

(** Step 2 of [main] and everything after it. *)
Definition main_from_simple (client : SecurePasteClient) : M unit :=
  print (nl ++ "2. Creating a simple paste") ;;
  simple_paste <- create_paste client
    (PStr "Hello World Example")
    (PStr ("print(" ++ dquote ++ "Hello, World from Python!" ++ dquote ++ ")"))
    [("language", PStr "python"); ("authorName", PStr "API Example");
     ("visibility", PStr "PUBLIC")] ;;
  if truthy simple_paste then
    print "✓ Paste created successfully" ;;
    print_paste_info simple_paste ;;
    simple_paste_id <- lift (subscript simple_paste "id") ;;
    main_from_protected client simple_paste_id
  else
    print "✗ Failed to create paste".

Definition main : M unit :=
  print "SecurePaste Python API Client Example" ;;
  print (str_repeat "=" 50) ;;
  let client := SecurePasteClient_init default_base_url in
  print "1. Health Check" ;;
  healthy <- health_check client ;;
  (if healthy then print "✓ Service is healthy"
   else print "✗ Service is not available" ;; sys_exit 1) ;;
  main_from_simple client.

End Client.

(** ** The eight operations as one family *)

Inductive operation : Type :=
| OpCreate (title content : value) (kwargs : dict)
| OpGet (paste_id password : value)
| OpUpdate (paste_id : value) (kwargs : dict)
| OpDelete (paste_id : value)
| OpPublic (page size : value)
| OpSearch (query page size : value)
| OpLanguage (language page size : value)
| OpStatistics.

Definition failure_value (op : operation) : value :=
  match op with
  | OpDelete _ => PBool false
  | _ => PNone
  end.

(** [deletePaste] is the one operation that never reads the body. *)
Definition decodes_body (op : operation) : bool :=
  match op with
  | OpDelete _ => false
  | _ => true
  end.

(** The three operations whose handler has the [Response:] line. *)
Definition handler_mentions_response (op : operation) : bool :=
  match op with
  | OpCreate _ _ _ | OpGet _ _ | OpUpdate _ _ => true
  | _ => false
  end.

(** The exception [raise_for_status] builds for an error status. *)
Definition http_error_of (r : Response) : RequestException :=
  mkRequestException HTTPError
    (str_of_Z (status_code r)
       ++ (if status_code r <? 500 then " Client Error: " else " Server Error: ")
       ++ reason r ++ " for url: " ++ resp_url r)
    (Some r).


Definition is_2xx (r : Response) : bool :=
  (200 <=? status_code r) && (status_code r <? 300).

Section Family.

Variable net : nat -> Request -> Exchange.
Variable json_loads : string -> Decoded.
Variable py_repr : value -> string.
Variable self : SecurePasteClient.

Definition run_operation (op : operation) : M value :=
  match op with
  | OpCreate title content kwargs =>
      create_paste net json_loads self title content kwargs
  | OpGet paste_id password =>
      get_paste net json_loads py_repr self paste_id password
  | OpUpdate paste_id kwargs =>
      update_paste net json_loads py_repr self paste_id kwargs
  | OpDelete paste_id =>
      deleted <- delete_paste net py_repr self paste_id ;; ret (PBool deleted)
  | OpPublic page size => get_public_pastes net json_loads self page size
  | OpSearch query page size => search_pastes net json_loads self query page size
  | OpLanguage language page size =>
      get_pastes_by_language net json_loads py_repr self language page size
  | OpStatistics => get_statistics net json_loads self
  end.

(** The request each operation is documented to make. *)
Definition request_of (op : operation) : Request :=
  match op with
  | OpCreate title content kwargs =>
      mkRequest POST (api_base self) None
        (Some (PDict (dict_update [("title", title); ("content", content)] kwargs)))
        (session_headers self)
  | OpGet paste_id password =>
      mkRequest GET (api_base self ++ "/" ++ py_str py_repr paste_id)
        (@Some dict (if truthy password then [("password", password)] else []))
        None (session_headers self)
  | OpUpdate paste_id kwargs =>
      mkRequest PUT (api_base self ++ "/" ++ py_str py_repr paste_id) None
        (Some (PDict kwargs)) (session_headers self)
  | OpDelete paste_id =>
      mkRequest DELETE (api_base self ++ "/" ++ py_str py_repr paste_id) None None
        (session_headers self)
  | OpPublic page size =>
      mkRequest GET (api_base self ++ "/public")
        (@Some dict [("page", page); ("size", size)]) None (session_headers self)
  | OpSearch query page size =>
      mkRequest GET (api_base self ++ "/search")
        (@Some dict [("q", query); ("page", page); ("size", size)]) None
        (session_headers self)
  | OpLanguage language page size =>
      mkRequest GET (api_base self ++ "/language/" ++ py_str py_repr language)
        (@Some dict [("page", page); ("size", size)]) None (session_headers self)
  | OpStatistics =>
      mkRequest GET (api_base self ++ "/stats") None None (session_headers self)
  end.

(** The first line an operation prints when it fails with [e]. *)
Definition error_line (op : operation) (e : RequestException) : string :=
  match op with
  | OpCreate _ _ _ => "Error creating paste: " ++ exc_str e
  | OpGet paste_id _ =>
      "Error retrieving paste " ++ py_str py_repr paste_id ++ ": " ++ exc_str e
  | OpUpdate paste_id _ =>
      "Error updating paste " ++ py_str py_repr paste_id ++ ": " ++ exc_str e
  | OpDelete paste_id =>
      "Error deleting paste " ++ py_str py_repr paste_id ++ ": " ++ exc_str e
  | OpPublic _ _ => "Error getting public pastes: " ++ exc_str e
  | OpSearch _ _ _ => "Error searching pastes: " ++ exc_str e
  | OpLanguage language _ _ =>
      "Error getting pastes for language " ++ py_str py_repr language ++ ": "
        ++ exc_str e
  | OpStatistics => "Error getting statistics: " ++ exc_str e
  end.

(** What the [try] block of an operation comes to for a given exchange:
    the value it returns, or the [RequestException] it raises. *)
Definition try_result (op : operation) (ex : Exchange)
    : value + RequestException :=
  match ex with
  | TransportError e => inr e
  | Reply r =>
      if is_error_status r then inr (http_error_of r)
      else if decodes_body op then
        match json_loads (text r) with
        | DecOk v => inl v
        | DecErr msg => inr (mkRequestException JSONDecodeError msg None)
        end
      else inl (PBool true)
  end.

(** The lines of the [except] block of an operation. *)
Definition handler_lines (op : operation) (e : RequestException) : list string :=
  error_line op e ::
  (if handler_mentions_response op then
     match exc_response e with
     | Some r => if response_truthy r then ["Response: " ++ text r] else []
     | None => []
     end
   else []).

(** One operation, start to end. *)
Definition operation_result (op : operation) (w : World) : Outcome value * World :=
  let r := request_of op in
  match try_result op (net (List.length (sent w)) r) with
  | inl v => (Returns v, mkWorld (sent w ++ [r]) (stdout w))
  | inr e => (Returns (failure_value op),
              mkWorld (sent w ++ [r]) (stdout w ++ handler_lines op e))
  end.

End Family.

(** ** Calling [create_paste]: argument binding

    [def create_paste(self, title, content, **kwargs)] called as a bound
    method: positional arguments fill [title] and [content] in order, a
    keyword naming a parameter fills that parameter, and only the other
    keywords reach [kwargs]. *)

Fixpoint bind_positional (params : list string) (args : list value)
    : option dict :=
  match args, params with
  | [], _ => Some []
  | a :: args', p :: params' =>
      match bind_positional params' args' with
      | Some bound => Some ((p, a) :: bound)
      | None => None
      end
  | _ :: _, [] => None
  end.

Fixpoint bind_keywords (fname : string) (params : list string) (kw : dict)
    (bound kwargs : dict) : Outcome (dict * dict) :=
  match kw with
  | [] => Returns (bound, kwargs)
  | (k, v) :: kw' =>
      if String.eqb k "self" || existsb (String.eqb k) params then
        if String.eqb k "self" || dict_has k bound then
          Raises (TypeError (fname ++ "() got multiple values for argument '"
                             ++ k ++ "'"))
        else bind_keywords fname params kw' (bound ++ [(k, v)])%list kwargs
      else if dict_has k kwargs then
        Raises (TypeError (fname ++ "() got multiple values for keyword argument '"
                           ++ k ++ "'"))
      else bind_keywords fname params kw' bound (kwargs ++ [(k, v)])%list
  end.

Definition bind_arguments (fname : string) (params : list string)
    (args : list value) (kw : dict) : Outcome (dict * dict) :=
  match bind_positional params args with
  | None => Raises (TypeError (fname ++ "() takes "
                      ++ str_of_Z (Z.of_nat (S (List.length params)))
                      ++ " positional arguments but "
                      ++ str_of_Z (Z.of_nat (S (List.length args)))
                      ++ " were given"))
  | Some bound =>
      match bind_keywords fname params kw bound [] with
      | Raises e => Raises e
      | Returns (bound', kwargs) =>
          if forallb (fun p => dict_has p bound') params then Returns (bound', kwargs)
          else Raises (TypeError (fname ++ "() missing required positional arguments"))
      end
  end.

Section Call.

Variable net : nat -> Request -> Exchange.
Variable json_loads : string -> Decoded.

(** A call of [self.create_paste] with positional arguments [args] and
    keyword arguments [kw]. *)
Definition call_create_paste (self : SecurePasteClient) (args : list value)
    (kw : dict) : M value :=
  match bind_arguments "create_paste" ["title"; "content"] args kw with
  | Raises e => raise e
  | Returns (bound, kwargs) =>
      match dict_get "title" bound, dict_get "content" bound with
      | Some title, Some content =>
          create_paste net json_loads self title content kwargs
      | _, _ => raise (TypeError "create_paste() missing required positional arguments")
      end
  end.

End Call.

(** The optional fields a call can hand to [create_paste]: distinct keys,
    none of them [title] or [content]. *)
Fixpoint distinct_keys (ks : list string) : bool :=
  match ks with
  | [] => true
  | k :: ks' => negb (existsb (String.eqb k) ks') && distinct_keys ks'
  end.

Definition optional_fields_ok (kwargs : dict) : bool :=
  distinct_keys (dict_keys kwargs)
  && negb (dict_has "title" kwargs) && negb (dict_has "content" kwargs).

(** The request body of [createPaste] in the words of the specification:
    the required fields merged with the optional ones. *)
Definition spec_create_body (title content : value) (options : dict) : value :=
  PDict ([("title", title); ("content", content)] ++ options)%list.

(** ** The exchanges of an operation *)

(** A JSON object. *)
Definition is_object (v : value) : bool :=
  match v with
  | PDict _ => true
  | _ => false
  end.

Definition health_request (self : SecurePasteClient) : Request :=
  mkRequest GET (api_base self ++ "/health") None None (session_headers self).



(** The exchanges on which [health_check] answers [False]. *)
Definition health_fails (json_loads : string -> Decoded) (ex : Exchange) : bool :=
  match ex with
  | TransportError _ => true
  | Reply r =>
      is_error_status r
      || match json_loads (text r) with DecErr _ => true | DecOk _ => false end
  end.

(** The client that [main] builds, and the state of the run when its
    health check starts. *)
Definition default_client : SecurePasteClient :=
  SecurePasteClient_init default_base_url.

Definition banner_world : World :=
  mkWorld [] ["SecurePaste Python API Client Example"; str_repeat "=" 50;
              "1. Health Check"].

(** ** Further notions for the client and the driver *)

(** The last character of a string. *)
Fixpoint str_last (s : string) : option ascii :=
  match s with
  | EmptyString => None
  | String c EmptyString => Some c
  | String _ s' => str_last s'
  end.

(** The operations that send a JSON body, and those that only read. *)
Definition sends_body (op : operation) : bool :=
  match op with
  | OpCreate _ _ _ | OpUpdate _ _ => true
  | _ => false
  end.

Definition is_query (op : operation) : bool :=
  match op with
  | OpGet _ _ | OpPublic _ _ | OpSearch _ _ _ | OpLanguage _ _ _ | OpStatistics => true
  | _ => false
  end.

(** The keys [print_paste_info] indexes, in the order it reads them. *)
Definition indexed_paste_keys : list string :=
  ["id"; "title"; "visibility"; "viewCount"; "createdAt"; "content"].

Definition first_missing (keys : list string) (d : dict) : option string :=
  find (fun k => negb (dict_has k d)) keys.

(** [m] leaves the list of requests as it is, however it ends. *)
Definition keeps_sent {A} (m : M A) : Prop :=
  forall w, sent (snd (m w)) = sent w.



(** [m] makes no request and prints the lines [lines], or it raises on the
    way, having printed the first few of them. *)
Definition prints_within (m : M unit) (lines : list string) : Prop :=
  forall w,
    match m w with
    | (Returns _, w') => w' = mkWorld (sent w) (stdout w ++ lines)
    | (Raises _, w') => exists k, w' = mkWorld (sent w) (stdout w ++ firstn k lines)
    end.

(** [m] raises, from every state. *)
Definition always_raises {A} (m : M A) : Prop :=
  forall w, exists e, fst (m w) = Raises e.


(** [follows m n reqs P]: started when [n] requests have been made, [m]
    makes the requests [reqs] in that order and returns a value that
    satisfies [P], or it raises on the way, having made the first few of
    them. *)
Definition follows {A} (m : M A) (n : nat) (reqs : list Request) (P : A -> Prop)
    : Prop :=
  forall w, List.length (sent w) = n ->
    match m w with
    | (Returns a, w') => sent w' = (sent w ++ reqs)%list /\ P a
    | (Raises _, w') => exists k, sent w' = (sent w ++ firstn k reqs)%list
    end.

(** [d.get(k, default)] on a dict. *)
Definition dict_get_default (k : string) (default : value) (d : dict) : value :=
  match dict_get k d with
  | Some v => v
  | None => default
  end.

(** The first [n] items of a string or a list. *)
Definition value_take (n : nat) (v : value) : value :=
  match v with
  | PStr s => PStr (str_take n s)
  | PList l => PList (firstn n l)
  | _ => v
  end.

(** The lines [print_paste_info] prints for a dict, when it prints them all. *)
Definition paste_info_lines (py_repr : value -> string) (d : dict) : list string :=
  let str := py_str py_repr in
  let fixed :=
    ["ID: " ++ str (dict_get_default "id" PNone d);
     "Title: " ++ str (dict_get_default "title" PNone d);
     "Language: " ++ str (dict_get_default "language" (PStr "N/A") d);
     "Author: " ++ str (dict_get_default "authorName" (PStr "Anonymous") d);
     "Visibility: " ++ str (dict_get_default "visibility" PNone d);
     "Views: " ++ str (dict_get_default "viewCount" PNone d);
     "Created: " ++ str (dict_get_default "createdAt" PNone d)] in
  let expires :=
    if truthy (dict_get_default "expiresAt" PNone d)
    then ["Expires: " ++ str (dict_get_default "expiresAt" PNone d)] else [] in
  let protected :=
    if truthy (dict_get_default "passwordProtected" PNone d)
    then ["Password Protected: Yes"] else [] in
  let preview :=
    ["Content Preview: "
       ++ str (value_take 100 (dict_get_default "content" PNone d)) ++ "...";
     str_repeat "-" 50] in
  (fixed ++ expires ++ protected ++ preview)%list.

(** The value an operation returns for a given exchange. *)
Definition returned_value (json_loads : string -> Decoded) (op : operation)
    (ex : Exchange) : value :=
  match try_result json_loads op ex with
  | inl v => v
  | inr _ => failure_value op
  end.

(** [paste['id']] for a paste that has an id. *)
Definition paste_id_of (paste : value) : value :=
  match subscript paste "id" with
  | Returns id => id
  | Raises _ => PNone
  end.

(** The three creations of [main]. *)
Definition simple_creation : operation :=
  OpCreate (PStr "Hello World Example")
    (PStr ("print(" ++ dquote ++ "Hello, World from Python!" ++ dquote ++ ")"))
    [("language", PStr "python"); ("authorName", PStr "API Example");
     ("visibility", PStr "PUBLIC")].

Definition protected_creation : operation :=
  OpCreate (PStr "Secret Code")
    (PStr "const secret = 'This is a secret message!';")
    [("language", PStr "javascript"); ("visibility", PStr "UNLISTED");
     ("password", PStr "secret123")].

Definition expiring_creation : operation :=
  OpCreate (PStr "Temporary Code Snippet")
    (PStr ("// This paste will expire in 60 minutes" ++ nl
           ++ "console.log('Temporary message');"))
    [("language", PStr "javascript"); ("expirationMinutes", PInt 60);
     ("visibility", PStr "PUBLIC")].

(** The values the first and the second creation of [main] return. *)
Definition first_created (net : nat -> Request -> Exchange)
    (json_loads : string -> Decoded) (py_repr : value -> string)
    (self : SecurePasteClient) : value :=
  returned_value json_loads simple_creation
    (net 1%nat (request_of py_repr self simple_creation)).

Definition second_created (net : nat -> Request -> Exchange)
    (json_loads : string -> Decoded) (py_repr : value -> string)
    (self : SecurePasteClient) : value :=
  returned_value json_loads protected_creation
    (net 2%nat (request_of py_repr self protected_creation)).

(** The update of [main]. *)
Definition main_update_fields : dict :=
  [("title", PStr "Updated Hello World Example");
   ("content", PStr ("print(" ++ dquote ++ "Hello, Updated World from Python!"
                     ++ dquote ++ ")"))].

(** The requests of steps 4 to 13 of [main], for the ids of the first two
    pastes. *)
Definition main_requests_from_expiring (py_repr : value -> string)
    (self : SecurePasteClient) (simple_paste_id protected_paste_id : value)
    : list Request :=
  map (request_of py_repr self)
    [expiring_creation;
     OpGet simple_paste_id PNone;
     OpGet protected_paste_id PNone;
     OpGet protected_paste_id (PStr "secret123");
     OpUpdate simple_paste_id main_update_fields;
     OpSearch (PStr "Python") (PInt 0) (PInt 5);
     OpLanguage (PStr "javascript") (PInt 0) (PInt 3);
     OpPublic (PInt 0) (PInt 5);
     OpStatistics;
     OpDelete simple_paste_id;
     OpDelete protected_paste_id].

(** The requests of a whole run of [main], given what the service answers
    to the first two creations: the health request and the first creation;
    then, if the first creation returned something true in a condition, the
    second creation; then, if the second did too, steps 4 to 13 with the
    ids of the two pastes. *)
Definition main_requests (net : nat -> Request -> Exchange)
    (json_loads : string -> Decoded) (py_repr : value -> string) : list Request :=
  let simple_paste := first_created net json_loads py_repr default_client in
  let protected_paste := second_created net json_loads py_repr default_client in
  health_request default_client
  :: request_of py_repr default_client simple_creation
  :: (if truthy simple_paste then
        request_of py_repr default_client protected_creation
        :: (if truthy protected_paste then
              main_requests_from_expiring py_repr default_client
                (paste_id_of simple_paste) (paste_id_of protected_paste)
            else [])
      else []).

(** ** A sample service

    A concrete service for the examples below: the bodies are printed by a
    small JSON printer, and the decoder recognises exactly the bodies of
    the sample records. *)

Module Sample.

Definition quoted (s : string) : string := dquote ++ s ++ dquote.

Fixpoint json_dumps (v : value) : string :=
  match v with
  | PNone => "null"
  | PBool true => "true"
  | PBool false => "false"
  | PInt n => str_of_Z n
  | PFloat _ r => r
  | PStr s => quoted s
  | PList l =>
      "[" ++ (fix items (l : list value) : string :=
                match l with
                | [] => ""
                | [x] => json_dumps x
                | x :: rest => json_dumps x ++ ", " ++ items rest
                end) l ++ "]"
  | PDict d =>
      "{" ++ (fix items (d : list (string * value)) : string :=
                match d with
                | [] => ""
                | [(k, x)] => quoted k ++ ": " ++ json_dumps x
                | (k, x) :: rest =>
                    quoted k ++ ": " ++ json_dumps x ++ ", " ++ items rest
                end) d ++ "}"
  end.

Definition health_up : value := PDict [("status", PStr "UP")].

Definition simple_paste : value :=
  PDict [("id", PStr "a1b2c3"); ("title", PStr "Hello World Example");
         ("content", PStr "print('Hello, World from Python!')");
         ("language", PStr "python"); ("authorName", PStr "API Example");
         ("visibility", PStr "PUBLIC"); ("passwordProtected", PBool false);
         ("createdAt", PStr "2024-05-01T10:00:00"); ("viewCount", PInt 0)].

Definition simple_paste_viewed : value :=
  PDict [("id", PStr "a1b2c3"); ("title", PStr "Hello World Example");
         ("content", PStr "print('Hello, World from Python!')");
         ("language", PStr "python"); ("authorName", PStr "API Example");
         ("visibility", PStr "PUBLIC"); ("passwordProtected", PBool false);
         ("createdAt", PStr "2024-05-01T10:00:00"); ("viewCount", PInt 1)].

Definition simple_paste_updated : value :=
  PDict [("id", PStr "a1b2c3"); ("title", PStr "Updated Hello World Example");
         ("content", PStr "print('Hello, Updated World from Python!')");
         ("language", PStr "python"); ("authorName", PStr "API Example");
         ("visibility", PStr "PUBLIC"); ("passwordProtected", PBool false);
         ("createdAt", PStr "2024-05-01T10:00:00"); ("viewCount", PInt 1)].

Definition protected_paste : value :=
  PDict [("id", PStr "d4e5f6"); ("title", PStr "Secret Code");
         ("content", PStr "const secret = 'This is a secret message!';");
         ("language", PStr "javascript"); ("visibility", PStr "UNLISTED");
         ("passwordProtected", PBool true);
         ("createdAt", PStr "2024-05-01T10:00:01"); ("viewCount", PInt 0)].

Definition expiring_paste : value :=
  PDict [("id", PStr "g7h8i9"); ("title", PStr "Temporary Code Snippet");
         ("content", PStr "console.log('Temporary message');");
         ("language", PStr "javascript"); ("visibility", PStr "PUBLIC");
         ("expiresAt", PStr "2024-05-01T11:00:02");
         ("createdAt", PStr "2024-05-01T10:00:02"); ("viewCount", PInt 0)].

Definition page : value :=
  PDict [("content", PList [simple_paste_updated; expiring_paste]);
         ("totalElements", PInt 2)].

Definition statistics : value :=
  PDict [("totalPastes", PInt 3); ("publicPastes", PInt 2); ("totalViews", PInt 1);
         ("popularLanguages",
          PList [PList [PStr "javascript"; PInt 2]; PList [PStr "python"; PInt 1]])].

(** A well-formed body that is not a paste record. *)
Definition stray_object : value := PDict [("message", PStr "created")].

(** The string that the JSON text ["\ud800"] decodes to. *)
Definition lone_surrogate : string :=
  String (ascii_of_nat 237) (String (ascii_of_nat 160) (String (ascii_of_nat 128) "")).

(** A paste record whose title standard output cannot encode. *)
Definition surrogate_paste : value :=
  PDict [("id", PStr "a1b2c3"); ("title", PStr lone_surrogate);
         ("content", PStr "print('Hello, World from Python!')");
         ("language", PStr "python"); ("authorName", PStr "API Example");
         ("visibility", PStr "PUBLIC"); ("passwordProtected", PBool false);
         ("createdAt", PStr "2024-05-01T10:00:00"); ("viewCount", PInt 0)].

Definition empty_array : value := PList [].

Definition known_bodies : list value :=
  [empty_array; health_up; simple_paste; simple_paste_viewed; simple_paste_updated;
   protected_paste; expiring_paste; page; statistics; stray_object;
   surrogate_paste].

Definition json_loads (s : string) : Decoded :=
  match find (fun v => String.eqb (json_dumps v) s) known_bodies with
  | Some v => DecOk v
  | None => DecErr "Expecting value: line 1 column 1 (char 0)"
  end.

(** A stand-in for the [repr] of lists and dicts. *)
Definition py_repr (v : value) : string := json_dumps v.

(** The standard output of the examples is in UTF-8. *)
Definition accepts (line : string) : bool := utf8_accepts line.

Definition client : SecurePasteClient := SecurePasteClient_init default_base_url.

Definition ok (body : value) (r : Request) : Exchange :=
  Reply (mkResponse 200 "OK" (req_url r) (json_dumps body)).

Definition created (body : value) (r : Request) : Exchange :=
  Reply (mkResponse 201 "Created" (req_url r) (json_dumps body)).

Definition no_content (r : Request) : Exchange :=
  Reply (mkResponse 204 "No Content" (req_url r) "").

Definition not_found (r : Request) : Exchange :=
  Reply (mkResponse 404 "Not Found" (req_url r) "paste does not exist").

Definition unauthorized (r : Request) : Exchange :=
  Reply (mkResponse 401 "Unauthorized" (req_url r) "password required").

Definition refused (r : Request) : Exchange :=
  TransportError (mkRequestException ConnectionError "Connection refused" None).

(** The items of a sample record. *)
Definition fields (v : value) : dict :=
  match v with
  | PDict d => d
  | _ => []
  end.

Definition server_error (r : Request) : Exchange :=
  Reply (mkResponse 500 "Internal Server Error" (req_url r) "boom").


(** A service that answers one way whatever the request. *)
Definition always (answer : Request -> Exchange) (n : nat) (r : Request)
    : Exchange := answer r.

(** A service that follows a script, one answer per exchange. *)
Definition scripted (script : list (Request -> Exchange)) (n : nat) (r : Request)
    : Exchange := nth n script refused r.

(** The run of [main] against a healthy service. *)
Definition healthy_script : list (Request -> Exchange) :=
  [ok health_up; created simple_paste; created protected_paste;
   created expiring_paste; ok simple_paste_viewed; unauthorized;
   ok protected_paste; ok simple_paste_updated; ok page; ok page; ok page;
   ok statistics; no_content; no_content].

End Sample.

(** * Facts *)

Lemma is_error_status_split (r : Response) :
  is_error_status r =
  ((400 <=? status_code r) && (status_code r <? 500))
  || ((500 <=? status_code r) && (status_code r <? 600)).
Proof.
  unfold is_error_status.
  destruct (Z.leb_spec 400 (status_code r)), (Z.ltb_spec (status_code r) 500),
    (Z.leb_spec 500 (status_code r)), (Z.ltb_spec (status_code r) 600);
    simpl; try reflexivity; lia.
Qed.

Lemma raise_for_status_run (r : Response) (w : World) :
  raise_for_status r w =
  if is_error_status r then (Raises (RequestExc (http_error_of r)), w)
  else (Returns tt, w).
Proof.
  rewrite is_error_status_split. unfold raise_for_status, http_error_of.
  destruct (Z.leb_spec 400 (status_code r)), (Z.ltb_spec (status_code r) 500),
    (Z.leb_spec 500 (status_code r)), (Z.ltb_spec (status_code r) 600);
    simpl; try reflexivity; lia.
Qed.

Lemma is_2xx_not_error (r : Response) : is_2xx r = true -> is_error_status r = false.
Proof.
  unfold is_2xx, is_error_status. intros H.
  apply andb_true_iff in H. destruct H as [_ H]. apply Z.ltb_lt in H.
  apply andb_false_iff. left. apply Z.leb_gt. lia.
Qed.

Section Facts.

Variable net : nat -> Request -> Exchange.
Variable json_loads : string -> Decoded.
Variable py_repr : value -> string.
Variable self : SecurePasteClient.

Ltac run_handler :=
  unfold bind, print, ret; simpl;
  repeat match goal with
         | |- context [exc_response ?e] => destruct (exc_response e) as [?r|]
         | |- context [response_truthy ?r] => destruct (response_truthy r)
         end;
  simpl; rewrite <- ?app_assoc; reflexivity.

Ltac run_try :=
  unfold try_except, bind, session_request; simpl;
  match goal with
  | |- context [net ?n ?r] => destruct (net n r) as [?e|?resp]
  end; simpl;
  [ run_handler
  | rewrite raise_for_status_run;
    match goal with
    | |- context [is_error_status ?x] => destruct (is_error_status x)
    end; simpl;
    [ run_handler
    | unfold response_json, raise, ret;
      try match goal with
          | |- context [json_loads ?t] => destruct (json_loads t)
          end; simpl; try reflexivity; run_handler ] ].

(** Every operation is its request, the [try] block and the handler. *)
Lemma run_operation_result (op : operation) (w : World) :
  run_operation net json_loads py_repr self op w
  = operation_result net json_loads py_repr self op w.
Proof.
  unfold operation_result, try_result, handler_lines.
  destruct op; simpl.
  - unfold create_paste. run_try.
  - unfold get_paste. destruct (truthy password); run_try.
  - unfold update_paste. run_try.
  - unfold bind at 1. unfold delete_paste. run_try.
  - unfold get_public_pastes. run_try.
  - unfold search_pastes. run_try.
  - unfold get_pastes_by_language. run_try.
  - unfold get_statistics. run_try.
Qed.

End Facts.

(** ** Error policy of the operations *)

Section ErrorPolicy.

Variable net : nat -> Request -> Exchange.
Variable json_loads : string -> Decoded.
Variable py_repr : value -> string.
Variable self : SecurePasteClient.




(** The [Response:] line of createPaste, getPaste and updatePaste is never
    printed for an HTTP error: the response of an [HTTPError] has a status
    in 400..599, and such a response is false in a condition. *)
Lemma http_error_report_has_no_body (op : operation) (w : World) (resp : Response) :
  net (List.length (sent w)) (request_of py_repr self op) = Reply resp ->
  is_error_status resp = true ->
  stdout (snd (run_operation net json_loads py_repr self op w))
  = (stdout w ++ [error_line py_repr op (http_error_of resp)])%list.
Proof.
  intros Hnet Herr. rewrite run_operation_result.
  unfold operation_result, try_result. rewrite Hnet, Herr. simpl.
  unfold handler_lines, response_truthy. simpl. rewrite Herr. simpl.
  destruct (handler_mentions_response op); reflexivity.
Qed.

End ErrorPolicy.





(** ** Dictionaries *)

Lemma dict_has_app (k : string) (d e : dict) :
  dict_has k (d ++ e)%list = dict_has k d || dict_has k e.
Proof.
  unfold dict_has. induction d as [|[k' v'] d IH]; simpl.
  - reflexivity.
  - destruct (String.eqb k k'); [reflexivity | exact IH].
Qed.

Lemma dict_set_fresh (k : string) (v : value) (d : dict) :
  dict_has k d = false -> dict_set k v d = (d ++ [(k, v)])%list.
Proof.
  unfold dict_has. induction d as [|[k' v'] d IH]; simpl; intros H.
  - reflexivity.
  - destruct (String.eqb k k'); [discriminate|].
    rewrite IH by exact H. reflexivity.
Qed.

Lemma dict_has_existsb (k : string) (d : dict) :
  dict_has k d = existsb (String.eqb k) (dict_keys d).
Proof.
  unfold dict_has. induction d as [|[k' v'] d IH]; simpl.
  - reflexivity.
  - destruct (String.eqb k k'); [reflexivity | exact IH].
Qed.

(** Storing fresh, pairwise distinct keys appends them in order. *)
Lemma dict_update_fresh (extra d : dict) :
  distinct_keys (dict_keys extra) = true ->
  (forall k, dict_has k extra = true -> dict_has k d = false) ->
  dict_update d extra = (d ++ extra)%list.
Proof.
  unfold dict_update. revert d.
  induction extra as [|[k v] extra IH]; simpl; intros d Hdist Hfresh.
  - symmetry. apply app_nil_r.
  - apply andb_true_iff in Hdist. destruct Hdist as [Hk Hdist].
    apply negb_true_iff in Hk.
    rewrite dict_set_fresh.
    + rewrite IH.
      * rewrite <- app_assoc. reflexivity.
      * exact Hdist.
      * intros k' Hk'. rewrite dict_has_app.
        apply orb_false_iff. split.
        -- apply Hfresh. unfold dict_has. simpl.
           destruct (String.eqb k' k); [reflexivity|exact Hk'].
        -- unfold dict_has. simpl.
           destruct (String.eqb k' k) eqn:E; [|reflexivity].
           apply String.eqb_eq in E. subst k'.
           rewrite dict_has_existsb in Hk'. congruence.
    + apply Hfresh. unfold dict_has. simpl. rewrite String.eqb_refl. reflexivity.
Qed.

(** The dict literal of [create_paste] for the options a call can pass. *)
Lemma create_body_is_merge (title content : value) (kwargs : dict) :
  optional_fields_ok kwargs = true ->
  PDict (dict_update [("title", title); ("content", content)] kwargs)
  = spec_create_body title content kwargs.
Proof.
  unfold optional_fields_ok, spec_create_body. intros H.
  apply andb_true_iff in H. destruct H as [H Hc].
  apply andb_true_iff in H. destruct H as [Hd Ht].
  apply negb_true_iff in Hc. apply negb_true_iff in Ht.
  f_equal. apply dict_update_fresh; [exact Hd|].
  intros k Hk. unfold dict_has at 1. simpl.
  destruct (String.eqb k "title") eqn:E1.
  - apply String.eqb_eq in E1. subst k. congruence.
  - destruct (String.eqb k "content") eqn:E2; [|reflexivity].
    apply String.eqb_eq in E2. subst k. congruence.
Qed.

(** ** The requests and results of the operations *)

Section Requests.

Variable net : nat -> Request -> Exchange.
Variable json_loads : string -> Decoded.
Variable py_repr : value -> string.
Variable self : SecurePasteClient.

(** What a decoding operation returns for a 2xx response with a JSON body. *)
Lemma operation_success (op : operation) (w : World) (resp : Response) (v : value) :
  decodes_body op = true ->
  net (List.length (sent w)) (request_of py_repr self op) = Reply resp ->
  is_2xx resp = true ->
  json_loads (text resp) = DecOk v ->
  run_operation net json_loads py_repr self op w
  = (Returns v, mkWorld (sent w ++ [request_of py_repr self op]) (stdout w)).
Proof.
  intros Hdec Hnet H2xx Hjson. rewrite run_operation_result.
  unfold operation_result, try_result.
  rewrite Hnet, (is_2xx_not_error _ H2xx), Hdec, Hjson. reflexivity.
Qed.

Lemma operation_sends (op : operation) (w : World) :
  sent (snd (run_operation net json_loads py_repr self op w))
  = (sent w ++ [request_of py_repr self op])%list.
Proof.
  rewrite run_operation_result. unfold operation_result.
  destruct (try_result _ _ _); reflexivity.
Qed.


(** C6.  For every title, content and set of optional fields, createPaste
    issues POST {baseUrl}/api/pastes whose JSON body is the required
    fields [title] and [content] merged with the optional fields, and on
    a 2xx response it returns the decoded JSON body. *)
Theorem create_paste_request_and_result (title content : value) (kwargs : dict)
    (w : World) :
  optional_fields_ok kwargs = true ->
  let r := mkRequest POST (api_base self) None
             (Some (spec_create_body title content kwargs))
             (session_headers self) in
  sent (snd (create_paste net json_loads self title content kwargs w))
  = (sent w ++ [r])%list
  /\ (forall resp v,
         net (List.length (sent w)) r = Reply resp ->
         is_2xx resp = true ->
         json_loads (text resp) = DecOk v ->
         create_paste net json_loads self title content kwargs w
         = (Returns v, mkWorld (sent w ++ [r]) (stdout w))).
Proof.
  intros Hok r.
  assert (Hr : request_of py_repr self (OpCreate title content kwargs) = r).
  { unfold r. simpl. rewrite (create_body_is_merge _ _ _ Hok). reflexivity. }
  rewrite <- Hr. split.
  - exact (operation_sends (OpCreate title content kwargs) w).
  - intros resp v Hnet H2xx Hjson.
    exact (operation_success (OpCreate title content kwargs) w resp v
             eq_refl Hnet H2xx Hjson).
Qed.

(** C7.  For every paste id and set of fields, updatePaste issues
    PUT {baseUrl}/api/pastes/{id} whose JSON body is the supplied fields
    and nothing else, and on a 2xx response it returns the decoded JSON
    body. *)
Theorem update_paste_request_and_result (paste_id : value) (kwargs : dict)
    (w : World) :
  let r := mkRequest PUT (api_base self ++ "/" ++ py_str py_repr paste_id) None
             (Some (PDict kwargs)) (session_headers self) in
  sent (snd (update_paste net json_loads py_repr self paste_id kwargs w))
  = (sent w ++ [r])%list
  /\ (forall resp v,
         net (List.length (sent w)) r = Reply resp ->
         is_2xx resp = true ->
         json_loads (text resp) = DecOk v ->
         update_paste net json_loads py_repr self paste_id kwargs w
         = (Returns v, mkWorld (sent w ++ [r]) (stdout w))).
Proof.
  intros r. split.
  - exact (operation_sends (OpUpdate paste_id kwargs) w).
  - intros resp v Hnet H2xx Hjson.
    exact (operation_success (OpUpdate paste_id kwargs) w resp v
             eq_refl Hnet H2xx Hjson).
Qed.

(** C10.  getPaste with an empty-string password makes the same request
    as getPaste with no password: the [password] query parameter is left
    out whenever the password is empty or absent, and no request of
    getPaste carries an empty password. *)
Theorem get_paste_empty_password (paste_id : value) (w : World) :
  get_paste net json_loads py_repr self paste_id (PStr "") w
  = get_paste net json_loads py_repr self paste_id PNone w
  /\ (forall password,
         password = PStr "" \/ password = PNone ->
         sent (snd (get_paste net json_loads py_repr self paste_id password w))
         = (sent w ++ [mkRequest GET (api_base self ++ "/" ++ py_str py_repr paste_id)
                         (Some []) None (session_headers self)])%list)
  /\ (forall password r params,
         In r (sent (snd (get_paste net json_loads py_repr self paste_id
                            password w))) ->
         ~ In r (sent w) ->
         req_params r = Some params ->
         dict_get "password" params <> Some (PStr "")).
Proof.
  split; [reflexivity|]. split.
  - intros password [H|H]; subst password.
    + exact (operation_sends (OpGet paste_id (PStr "")) w).
    + exact (operation_sends (OpGet paste_id PNone) w).
  - intros password r params Hin Hnew Hparams.
    pose proof (operation_sends (OpGet paste_id password) w) as Hsent.
    simpl in Hsent. rewrite Hsent in Hin.
    apply in_app_or in Hin. destruct Hin as [Hin|[Hin|[]]]; [contradiction|].
    subst r. simpl in Hparams. injection Hparams as Hparams. subst params.
    destruct (truthy password) eqn:Htruthy; simpl; [|discriminate].
    intros Heq. injection Heq as Heq. subst password. discriminate.
Qed.

End Requests.

(** ** healthCheck and deletePaste *)

Section Booleans.

Variable net : nat -> Request -> Exchange.
Variable json_loads : string -> Decoded.
Variable py_repr : value -> string.
Variable self : SecurePasteClient.

Lemma health_check_run (w : World) :
  health_check net json_loads self w
  = let w' := mkWorld (sent w ++ [health_request self]) (stdout w) in
    match net (List.length (sent w)) (health_request self) with
    | TransportError _ => (Returns false, w')
    | Reply resp =>
        if is_error_status resp then (Returns false, w')
        else
          match json_loads (text resp) with
          | DecErr _ => (Returns false, w')
          | DecOk body =>
              match py_get body "status" PNone with
              | Returns status => (Returns (py_eq_str status "UP"), w')
              | Raises e => (Raises e, w')
              end
          end
    end.
Proof.
  unfold health_check, try_except, bind, session_request, health_request. simpl.
  destruct (net _ _) as [e|resp]; simpl; [reflexivity|].
  rewrite raise_for_status_run. destruct (is_error_status resp); simpl; [reflexivity|].
  unfold response_json. destruct (json_loads (text resp)) as [body|msg]; simpl;
    [|reflexivity].
  unfold lift. destruct body as [ | | | | | |d]; simpl; try reflexivity.
  destruct (dict_get "status" d); reflexivity.
Qed.

(** C2, as amended.  healthCheck issues GET {baseUrl}/api/pastes/health
    and returns True exactly when a response arrives whose status is
    outside 400..599 and whose body decodes to a JSON object with
    [status] equal to "UP"; for every transport failure, status in
    400..599 or body that is not valid JSON it returns False and does not
    raise. *)
Theorem health_check_answer (w : World) :
  let r := mkRequest GET (api_base self ++ "/health") None None
             (session_headers self) in
  sent (snd (health_check net json_loads self w)) = (sent w ++ [r])%list
  /\ (fst (health_check net json_loads self w) = Returns true <->
      exists resp d,
        net (List.length (sent w)) r = Reply resp
        /\ is_error_status resp = false
        /\ json_loads (text resp) = DecOk (PDict d)
        /\ dict_get "status" d = Some (PStr "UP"))
  /\ (health_fails json_loads (net (List.length (sent w)) r) = true ->
      health_check net json_loads self w
      = (Returns false, mkWorld (sent w ++ [r]) (stdout w))).
Proof.
  intros r. rewrite health_check_run. fold r.
  change (health_request self) with r. unfold health_fails.
  destruct (net (List.length (sent w)) r) as [e|resp]; simpl.
  - split; [reflexivity|]. split; [|reflexivity].
    split; [discriminate|]. intros (resp & d & H & _). discriminate.
  - destruct (is_error_status resp) eqn:Herr; simpl.
    + split; [reflexivity|]. split; [|reflexivity].
      split; [discriminate|]. intros (resp' & d & H & Hn & _).
      injection H as <-. congruence.
    + destruct (json_loads (text resp)) as [body|msg] eqn:Hjson; simpl.
      * split; [destruct (py_get body "status" PNone); reflexivity|].
        split; [|discriminate].
        split.
        -- intros Hrun. exists resp.
           destruct body as [ | | | | | |d]; simpl in Hrun; try discriminate.
           exists d. repeat split; try reflexivity; try assumption.
           destruct (dict_get "status" d) as [status|]; simpl in Hrun;
             [|discriminate].
           destruct status; simpl in Hrun; try discriminate.
           injection Hrun as Hrun. apply String.eqb_eq in Hrun. subst s.
           reflexivity.
        -- intros (resp' & d & H & _ & Hbody & Hstatus).
           injection H as <-. rewrite Hjson in Hbody.
           injection Hbody as ->. simpl. rewrite Hstatus. reflexivity.
      * split; [reflexivity|]. split; [|reflexivity].
        split; [discriminate|]. intros (resp' & d & H & _ & Hbody & _).
        injection H as <-. congruence.
Qed.

(** healthCheck raises [AttributeError] when the body is valid JSON but
    not an object. *)
Lemma health_check_raises_on_non_object (w : World) (resp : Response) (body : value) :
  net (List.length (sent w)) (health_request self) = Reply resp ->
  is_error_status resp = false ->
  json_loads (text resp) = DecOk body ->
  is_object body = false ->
  exists msg, fst (health_check net json_loads self w) = Raises (AttributeError msg).
Proof.
  intros Hnet Herr Hjson Hobj. rewrite health_check_run.
  rewrite Hnet, Herr, Hjson.
  destruct body; simpl in *; try discriminate; eexists; reflexivity.
Qed.

Lemma delete_paste_run (paste_id : value) (w : World) :
  delete_paste net py_repr self paste_id w
  = let r := request_of py_repr self (OpDelete paste_id) in
    match net (List.length (sent w)) r with
    | TransportError e =>
        (Returns false,
         mkWorld (sent w ++ [r])
           (stdout w ++ [error_line py_repr (OpDelete paste_id) e]))
    | Reply resp =>
        if is_error_status resp then
          (Returns false,
           mkWorld (sent w ++ [r])
             (stdout w ++ [error_line py_repr (OpDelete paste_id) (http_error_of resp)]))
        else (Returns true, mkWorld (sent w ++ [r]) (stdout w))
    end.
Proof.
  unfold delete_paste, try_except, bind, session_request. simpl.
  destruct (net _ _) as [e|resp]; simpl; [reflexivity|].
  rewrite raise_for_status_run. destruct (is_error_status resp); reflexivity.
Qed.


End Booleans.

(** ** The operations against the sample service *)

(** C2, witness: a healthy service, and one that refuses the connection. *)
Lemma health_check_answer_witness :
  fst (health_check (Sample.always (Sample.ok Sample.health_up)) Sample.json_loads
         Sample.client world0) = Returns true
  /\ health_check (Sample.always Sample.refused) Sample.json_loads Sample.client world0
     = (Returns false,
        mkWorld [mkRequest GET "http://localhost:8080/api/pastes/health" None None
                   (session_headers Sample.client)] []).
Proof.
  split.
  - apply (proj2 (proj1 (proj2 (health_check_answer
             (Sample.always (Sample.ok Sample.health_up)) Sample.json_loads
             Sample.client world0)))).
    exists (mkResponse 200 "OK" "http://localhost:8080/api/pastes/health"
              (Sample.json_dumps Sample.health_up)).
    exists [("status", PStr "UP")].
    repeat split; reflexivity.
  - apply (proj2 (proj2 (health_check_answer (Sample.always Sample.refused)
             Sample.json_loads Sample.client world0))).
    reflexivity.
Defined.

(** C2, counterexample.  The service answers the health request with
    status 300 and the body [{"status": "UP"}]: the status is not 2xx, and
    healthCheck returns True. *)
Lemma health_check_counterexample :
  let choices := fun r =>
    Reply (mkResponse 300 "Multiple Choices" (req_url r)
             (Sample.json_dumps Sample.health_up)) in
  is_2xx (mkResponse 300 "Multiple Choices" "" "") = false
  /\ fst (health_check (Sample.always choices) Sample.json_loads Sample.client world0)
     = Returns true.
Proof. vm_compute. split; reflexivity. Qed.



(** C6, witness: the first paste that [main] creates. *)
Lemma create_paste_request_and_result_witness :
  let kwargs := [("language", PStr "python"); ("authorName", PStr "API Example");
                 ("visibility", PStr "PUBLIC")] in
  let r := mkRequest POST "http://localhost:8080/api/pastes" None
             (Some (PDict [("title", PStr "Hello World Example");
                           ("content", PStr "print('Hello, World from Python!')");
                           ("language", PStr "python");
                           ("authorName", PStr "API Example");
                           ("visibility", PStr "PUBLIC")]))
             (session_headers Sample.client) in
  create_paste (Sample.always (Sample.created Sample.simple_paste)) Sample.json_loads
    Sample.client (PStr "Hello World Example")
    (PStr "print('Hello, World from Python!')") kwargs world0
  = (Returns Sample.simple_paste, mkWorld [r] []).
Proof.
  apply (proj2 (create_paste_request_and_result
           (Sample.always (Sample.created Sample.simple_paste)) Sample.json_loads
           Sample.py_repr Sample.client (PStr "Hello World Example")
           (PStr "print('Hello, World from Python!')")
           [("language", PStr "python"); ("authorName", PStr "API Example");
            ("visibility", PStr "PUBLIC")] world0 eq_refl)
           (mkResponse 201 "Created" "http://localhost:8080/api/pastes"
              (Sample.json_dumps Sample.simple_paste))
           Sample.simple_paste); reflexivity.
Defined.

(** C7, witness: the update that [main] makes. *)
Lemma update_paste_request_and_result_witness :
  let kwargs := [("title", PStr "Updated Hello World Example");
                 ("content", PStr "print('Hello, Updated World from Python!')")] in
  update_paste (Sample.always (Sample.ok Sample.simple_paste_updated))
    Sample.json_loads Sample.py_repr Sample.client (PStr "a1b2c3") kwargs world0
  = (Returns Sample.simple_paste_updated,
     mkWorld [mkRequest PUT "http://localhost:8080/api/pastes/a1b2c3" None
                (Some (PDict kwargs)) (session_headers Sample.client)] []).
Proof.
  apply (proj2 (update_paste_request_and_result
           (Sample.always (Sample.ok Sample.simple_paste_updated)) Sample.json_loads
           Sample.py_repr Sample.client (PStr "a1b2c3")
           [("title", PStr "Updated Hello World Example");
            ("content", PStr "print('Hello, Updated World from Python!')")] world0)
           (mkResponse 200 "OK" "http://localhost:8080/api/pastes/a1b2c3"
              (Sample.json_dumps Sample.simple_paste_updated))
           Sample.simple_paste_updated); reflexivity.
Defined.



(** C10, witness: the empty password, and the one request of that call. *)
Lemma get_paste_empty_password_witness :
  let net := Sample.always (Sample.ok Sample.simple_paste_viewed) in
  let r := mkRequest GET "http://localhost:8080/api/pastes/a1b2c3" (Some []) None
             (session_headers Sample.client) in
  sent (snd (get_paste net Sample.json_loads Sample.py_repr Sample.client
               (PStr "a1b2c3") (PStr "") world0)) = [r]
  /\ dict_get "password" [] <> Some (PStr "").
Proof.
  split.
  - apply (proj1 (proj2 (get_paste_empty_password
             (Sample.always (Sample.ok Sample.simple_paste_viewed))
             Sample.json_loads Sample.py_repr Sample.client (PStr "a1b2c3") world0))
             (PStr "")).
    left. reflexivity.
  - apply (proj2 (proj2 (get_paste_empty_password
             (Sample.always (Sample.ok Sample.simple_paste_viewed))
             Sample.json_loads Sample.py_repr Sample.client (PStr "a1b2c3") world0))
             (PStr "")
             (mkRequest GET "http://localhost:8080/api/pastes/a1b2c3" (Some []) None
                (session_headers Sample.client))
             []).
    + simpl. left. reflexivity.
    + simpl. intros [].
    + reflexivity.
Defined.

(** ** Argument binding of [create_paste] *)

Lemma distinct_keys_snoc (l : list string) (k : string) :
  distinct_keys (l ++ [k]) = distinct_keys l && negb (existsb (String.eqb k) l).
Proof.
  induction l as [|x l IH]; simpl.
  - reflexivity.
  - rewrite IH, existsb_app. simpl. rewrite (String.eqb_sym k x).
    destruct (existsb (String.eqb x) l), (String.eqb x k), (distinct_keys l),
      (existsb (String.eqb k) l); reflexivity.
Qed.

(** A keyword that names a parameter already bound makes the call fail. *)
Lemma bind_keywords_rejects (fname : string) (params : list string) (k : string)
    (kw : dict) :
  existsb (String.eqb k) params = true ->
  forall bound kwargs,
    dict_has k kw = true ->
    dict_has k bound = true ->
    exists msg, bind_keywords fname params kw bound kwargs = Raises (TypeError msg).
Proof.
  intros Hparam. induction kw as [|[k' v'] kw IH]; intros bound kwargs Hkw Hbound.
  - discriminate.
  - simpl.
    destruct (String.eqb k' "self" || existsb (String.eqb k') params) eqn:Hp.
    + destruct (String.eqb k' "self" || dict_has k' bound) eqn:Hb.
      * eexists. reflexivity.
      * apply orb_false_iff in Hb. destruct Hb as [_ Hb].
        apply IH.
        -- unfold dict_has in Hkw |- *. simpl in Hkw.
           destruct (String.eqb k k') eqn:E; [|exact Hkw].
           apply String.eqb_eq in E. subst k'. congruence.
        -- rewrite dict_has_app, Hbound. reflexivity.
    + destruct (dict_has k' kwargs).
      * eexists. reflexivity.
      * apply IH; [|exact Hbound].
        apply orb_false_iff in Hp. destruct Hp as [_ Hp].
        unfold dict_has in Hkw |- *. simpl in Hkw.
        destruct (String.eqb k k') eqn:E; [|exact Hkw].
        apply String.eqb_eq in E. subst k'. congruence.
Qed.

(** What reaches [kwargs] has distinct keys, none of them a parameter. *)
Lemma bind_keywords_kwargs (fname : string) (params : list string) (kw : dict) :
  forall bound kwargs bound' kwargs',
    bind_keywords fname params kw bound kwargs = Returns (bound', kwargs') ->
    distinct_keys (dict_keys kwargs) = true ->
    (forall p, existsb (String.eqb p) params = true -> dict_has p kwargs = false) ->
    distinct_keys (dict_keys kwargs') = true
    /\ (forall p, existsb (String.eqb p) params = true -> dict_has p kwargs' = false).
Proof.
  induction kw as [|[k v] kw IH]; intros bound kwargs bound' kwargs' Hrun Hd Hp.
  - simpl in Hrun. injection Hrun as <- <-. split; assumption.
  - simpl in Hrun.
    destruct (String.eqb k "self" || existsb (String.eqb k) params) eqn:Hk.
    + destruct (String.eqb k "self" || dict_has k bound); [discriminate|].
      exact (IH _ _ _ _ Hrun Hd Hp).
    + destruct (dict_has k kwargs) eqn:Hfresh; [discriminate|].
      apply (IH _ _ _ _ Hrun).
      * unfold dict_keys. rewrite map_app. simpl.
        rewrite distinct_keys_snoc. fold (dict_keys kwargs).
        rewrite Hd, <- dict_has_existsb, Hfresh. reflexivity.
      * intros p Hparam. rewrite dict_has_app, (Hp p Hparam). simpl.
        unfold dict_has. simpl.
        destruct (String.eqb p k) eqn:E; [|reflexivity].
        apply String.eqb_eq in E. subst p.
        apply orb_false_iff in Hk. destruct Hk as [_ Hk]. congruence.
Qed.

(** Binding keywords leaves the parameters already bound as they are. *)
Lemma bind_keywords_keeps_bound (fname : string) (params : list string) (kw : dict) :
  forall bound kwargs bound' kwargs' p x,
    bind_keywords fname params kw bound kwargs = Returns (bound', kwargs') ->
    dict_get p bound = Some x ->
    dict_get p bound' = Some x.
Proof.
  induction kw as [|[k v] kw IH]; intros bound kwargs bound' kwargs' p x Hrun Hget.
  - simpl in Hrun. injection Hrun as <- <-. exact Hget.
  - simpl in Hrun.
    destruct (String.eqb k "self" || existsb (String.eqb k) params).
    + destruct (String.eqb k "self" || dict_has k bound); [discriminate|].
      apply (IH _ _ _ _ p x Hrun).
      clear - Hget. induction bound as [|[k' v'] bound IHb]; simpl in *.
      * discriminate.
      * destruct (String.eqb p k'); [exact Hget | exact (IHb Hget)].
    + destruct (dict_has k kwargs); [discriminate|].
      exact (IH _ _ _ _ p x Hrun Hget).
Qed.

Lemma dict_has_get (k : string) (d : dict) :
  dict_has k d = true -> exists x, dict_get k d = Some x.
Proof.
  unfold dict_has. destruct (dict_get k d) as [x|]; [|discriminate].
  intros _. exists x. reflexivity.
Qed.

Section Binding.

Variable net : nat -> Request -> Exchange.
Variable json_loads : string -> Decoded.
Variable self : SecurePasteClient.

(** C9, as amended.  The options of createPaste cannot name [title] or
    [content]: a call that passes one of them as a keyword next to the
    positional argument is rejected with [TypeError] and makes no request;
    in every call that is accepted the options have distinct keys other
    than [title] and [content], the first positional argument is the
    title, and the request body is [title], [content] and then the
    options, so the title and content that are sent are the arguments. *)
Theorem create_paste_options_cannot_override (args : list value) (kw : dict)
    (w : World) :
  (forall t rest,
      args = t :: rest ->
      dict_has "title" kw = true ->
      exists msg,
        call_create_paste net json_loads self args kw w = (Raises (TypeError msg), w))
  /\ (forall t c rest,
      args = t :: c :: rest ->
      dict_has "content" kw = true ->
      exists msg,
        call_create_paste net json_loads self args kw w = (Raises (TypeError msg), w))
  /\ (forall bound kwargs,
      bind_arguments "create_paste" ["title"; "content"] args kw
      = Returns (bound, kwargs) ->
      optional_fields_ok kwargs = true
      /\ exists title content,
          dict_get "title" bound = Some title
          /\ dict_get "content" bound = Some content
          /\ (forall t rest, args = t :: rest -> title = t)
          /\ call_create_paste net json_loads self args kw w
             = create_paste net json_loads self title content kwargs w
          /\ sent (snd (call_create_paste net json_loads self args kw w))
             = (sent w ++ [mkRequest POST (api_base self) None
                             (Some (PDict (("title", title) :: ("content", content)
                                             :: kwargs)))
                             (session_headers self)])%list).
Proof.
  split; [|split].
  - intros t rest -> Hkw. unfold call_create_paste, bind_arguments. simpl.
    destruct rest as [|c rest]; simpl.
    + destruct (bind_keywords_rejects "create_paste" ["title"; "content"] "title"
                  kw eq_refl [("title", t)] [] Hkw eq_refl) as [msg ->].
      exists msg. reflexivity.
    + destruct rest as [|x rest]; simpl.
      * destruct (bind_keywords_rejects "create_paste" ["title"; "content"] "title"
                    kw eq_refl [("title", t); ("content", c)] [] Hkw eq_refl)
          as [msg ->].
        exists msg. reflexivity.
      * eexists. reflexivity.
  - intros t c rest -> Hkw. unfold call_create_paste, bind_arguments. simpl.
    destruct rest as [|x rest]; simpl.
    + destruct (bind_keywords_rejects "create_paste" ["title"; "content"] "content"
                  kw eq_refl [("title", t); ("content", c)] [] Hkw eq_refl)
        as [msg ->].
      exists msg. reflexivity.
    + eexists. reflexivity.
  - intros bound kwargs Hbind. unfold bind_arguments in Hbind.
    destruct (bind_positional ["title"; "content"] args) as [b0|] eqn:Hpos;
      [|discriminate].
    destruct (bind_keywords "create_paste" ["title"; "content"] kw b0 [])
      as [[b1 k1]|e] eqn:Hkws; [|discriminate].
    destruct (forallb (fun p => dict_has p b1) ["title"; "content"]) eqn:Hall;
      [|discriminate].
    injection Hbind as <- <-.
    destruct (bind_keywords_kwargs _ _ _ _ _ _ _ Hkws eq_refl (fun _ _ => eq_refl))
      as [Hdist Hnone].
    assert (Hok : optional_fields_ok k1 = true).
    { unfold optional_fields_ok.
      rewrite Hdist, (Hnone "title" eq_refl), (Hnone "content" eq_refl).
      reflexivity. }
    split; [exact Hok|].
    simpl in Hall. apply andb_true_iff in Hall. destruct Hall as [Ht Hc].
    apply andb_true_iff in Hc. destruct Hc as [Hc _].
    destruct (dict_has_get _ _ Ht) as [title Htitle].
    destruct (dict_has_get _ _ Hc) as [content Hcontent].
    exists title, content.
    assert (Hcall : call_create_paste net json_loads self args kw w
                    = create_paste net json_loads self title content k1 w).
    { unfold call_create_paste, bind_arguments.
      rewrite Hpos, Hkws. simpl. rewrite Ht, Hc. simpl.
      rewrite Htitle, Hcontent. reflexivity. }
    repeat split; try assumption.
    + intros t rest ->. simpl in Hpos.
      destruct rest as [|c rest]; simpl in Hpos.
      * injection Hpos as <-.
        pose proof (bind_keywords_keeps_bound _ _ _ _ _ _ _ "title" t Hkws eq_refl).
        congruence.
      * destruct rest as [|x rest]; simpl in Hpos; [|discriminate].
        injection Hpos as <-.
        pose proof (bind_keywords_keeps_bound _ _ _ _ _ _ _ "title" t Hkws eq_refl).
        congruence.
    + rewrite Hcall.
      pose proof (run_operation_result net json_loads (fun _ => "") self
                    (OpCreate title content k1) w) as Hrun.
      simpl in Hrun. rewrite Hrun. unfold operation_result.
      simpl request_of. rewrite (create_body_is_merge _ _ _ Hok).
      destruct (try_result _ _ _); reflexivity.
Qed.

End Binding.

(** C9, witness: a call that names [title] twice, and the call [main] makes. *)
Lemma create_paste_options_cannot_override_witness :
  (exists msg,
      call_create_paste (Sample.always (Sample.created Sample.simple_paste))
        Sample.json_loads Sample.client [PStr "T"; PStr "C"] [("title", PStr "X")]
        world0
      = (Raises (TypeError msg), world0))
  /\ optional_fields_ok [("visibility", PStr "PUBLIC")] = true.
Proof.
  split.
  - apply (proj1 (create_paste_options_cannot_override
             (Sample.always (Sample.created Sample.simple_paste))
             Sample.json_loads Sample.client [PStr "T"; PStr "C"]
             [("title", PStr "X")] world0) (PStr "T") [PStr "C"]); reflexivity.
  - apply (proj2 (proj2 (create_paste_options_cannot_override
             (Sample.always (Sample.created Sample.simple_paste))
             Sample.json_loads Sample.client [PStr "T"]
             [("content", PStr "C"); ("visibility", PStr "PUBLIC")] world0))
             [("title", PStr "T"); ("content", PStr "C")]
             [("visibility", PStr "PUBLIC")]).
    reflexivity.
Defined.

(** C9, counterexample.  [create_paste("T", "C", title="X")]: the option is
    named [title], the call raises [TypeError], and no request is made, so
    no body with the title [X] is sent. *)
Lemma create_paste_override_counterexample :
  call_create_paste (Sample.always (Sample.created Sample.simple_paste))
    Sample.json_loads Sample.client [PStr "T"; PStr "C"] [("title", PStr "X")] world0
  = (Raises (TypeError "create_paste() got multiple values for argument 'title'"),
     world0).
Proof. reflexivity. Qed.

(** ** [sys.exit] *)












Section NoExit.

Variable net : nat -> Request -> Exchange.
Variable json_loads : string -> Decoded.
Variable py_repr : value -> string.
Variable accepts : string -> bool.
Variable client : SecurePasteClient.







End NoExit.

(** ** The exit status of [main] *)

Section Exit.

Variable net : nat -> Request -> Exchange.
Variable json_loads : string -> Decoded.
Variable py_repr : value -> string.
Variable accepts : string -> bool.

Lemma main_run :
  main net json_loads py_repr accepts world0
  = match health_check net json_loads default_client banner_world with
    | (Returns true, w) =>
        main_from_simple net json_loads py_repr accepts default_client
          (mkWorld (sent w) (stdout w ++ ["✓ Service is healthy"]))
    | (Returns false, w) =>
        (Raises (SystemExit 1),
         mkWorld (sent w) (stdout w ++ ["✗ Service is not available"]))
    | (Raises e, w) => (Raises e, w)
    end.
Proof.
  unfold main, bind, print, world0. cbn [sent stdout app].
  fold default_client banner_world.
  destruct (health_check net json_loads default_client banner_world)
    as [[[|]|e] w]; reflexivity.
Qed.


Lemma health_check_sends (w : World) :
  sent (snd (health_check net json_loads default_client w))
  = (sent w ++ [health_request default_client])%list.
Proof.
  rewrite health_check_run. cbv zeta.
  destruct (net _ _) as [e|resp]; [reflexivity|].
  destruct (is_error_status resp); [reflexivity|].
  destruct (json_loads (text resp)) as [v|msg]; [|reflexivity].
  destruct (py_get v "status" PNone); reflexivity.
Qed.


End Exit.



(** A later step can end the process on a paste record as well.  The
    service answers the first creation with a record that has every field
    and a title that holds a lone surrogate: the creation succeeds, and
    the title line raises [UnicodeEncodeError] on a standard output in
    UTF-8. *)
Lemma main_unencodable_title_example :
  let net := Sample.scripted [Sample.ok Sample.health_up;
                              Sample.created Sample.surrogate_paste] in
  fst (health_check net Sample.json_loads default_client world0) = Returns true
  /\ fst (main net Sample.json_loads Sample.py_repr Sample.accepts world0)
     = Raises (UnicodeEncodeError ("Title: " ++ Sample.lone_surrogate))
  /\ exit_status (main net Sample.json_loads Sample.py_repr Sample.accepts world0) = 1.
Proof. vm_compute. repeat split. Qed.

(** * Further properties of the client *)

(** ** The base URL *)

Lemma rstrip_slash_app_slash (s : string) :
  rstrip_slash (s ++ "/") = rstrip_slash s.
Proof.
  induction s as [|c s IH]; simpl.
  - reflexivity.
  - rewrite IH. reflexivity.
Qed.

Lemma rstrip_slash_last (s : string) : str_last (rstrip_slash s) <> Some "/"%char.
Proof.
  induction s as [|c s IH]; simpl.
  - discriminate.
  - destruct (rstrip_slash s) as [|c' r] eqn:Hr.
    + destruct (Ascii.eqb c "/") eqn:Hc; simpl.
      * discriminate.
      * intros H. injection H as ->. discriminate.
    + simpl in IH |- *. exact IH.
Qed.

Lemma rstrip_slash_decompose (s : string) :
  exists n, s = rstrip_slash s ++ str_repeat "/" n.
Proof.
  induction s as [|c s [n IH]]; simpl.
  - exists 0%nat. reflexivity.
  - destruct (rstrip_slash s) as [|c' r] eqn:Hr.
    + destruct (Ascii.eqb c "/") eqn:Hc; simpl.
      * apply Ascii.eqb_eq in Hc. subst c. exists (S n). simpl.
        simpl in IH. rewrite <- IH. reflexivity.
      * exists n. simpl in IH. rewrite <- IH. reflexivity.
    + exists n. simpl. simpl in IH. rewrite <- IH. reflexivity.
Qed.

(** X1.  The constructor removes every trailing slash of the base URL: the
    stored base URL does not end in a slash, the URL given is the stored one
    followed by slashes only, a URL with one more trailing slash builds the
    same client, and the API base is the stored URL followed by
    [/api/pastes]. *)
Theorem client_base_url_normalised (url : string) :
  str_last (base_url (SecurePasteClient_init url)) <> Some "/"%char
  /\ (exists n, url = base_url (SecurePasteClient_init url) ++ str_repeat "/" n)
  /\ SecurePasteClient_init (url ++ "/") = SecurePasteClient_init url
  /\ api_base (SecurePasteClient_init url)
     = base_url (SecurePasteClient_init url) ++ "/api/pastes".
Proof.
  unfold SecurePasteClient_init. simpl. repeat split.
  - apply rstrip_slash_last.
  - apply rstrip_slash_decompose.
  - rewrite rstrip_slash_app_slash. reflexivity.
Qed.

(** ** One request per operation *)

Lemma prefix_app (s t : string) : String.prefix s (s ++ t) = true.
Proof.
  induction s as [|c s IH]; simpl.
  - destruct t; reflexivity.
  - destruct (ascii_dec c c) as [_|Hneq]; [exact IH | contradiction].
Qed.

Lemma prefix_refl (s : string) : String.prefix s s = true.
Proof.
  induction s as [|c s IH]; simpl.
  - reflexivity.
  - destruct (ascii_dec c c) as [_|Hneq]; [exact IH | contradiction].
Qed.

Section Discipline.

Variable net : nat -> Request -> Exchange.
Variable json_loads : string -> Decoded.
Variable py_repr : value -> string.
Variable self : SecurePasteClient.

(** X2.  Whatever the service answers, an operation makes exactly one
    request: to a URL under the API base, with the headers of the session;
    it is a GET without a body for the reading operations, and a JSON body
    is sent by createPaste and updatePaste only. *)
Theorem operation_makes_one_request (op : operation) (w : World) :
  exists r,
    sent (snd (run_operation net json_loads py_repr self op w))
    = (sent w ++ [r])%list
    /\ String.prefix (api_base self) (req_url r) = true
    /\ req_headers r = session_headers self
    /\ (req_method r = GET <-> is_query op = true)
    /\ (req_json r <> None <-> sends_body op = true).
Proof.
  exists (request_of py_repr self op). split.
  - rewrite run_operation_result. unfold operation_result.
    destruct (try_result _ _ _); reflexivity.
  - destruct op; simpl; repeat split;
      try apply prefix_app; try apply prefix_refl; try discriminate;
      try reflexivity;
      try (intros H; exfalso; apply H; reflexivity).
Qed.

(** The whole behaviour of an operation that decodes the body and whose
    handler prints one line. *)
Lemma reading_operation_behaviour (op : operation) (w : World) :
  decodes_body op = true ->
  handler_mentions_response op = false ->
  let r := request_of py_repr self op in
  sent (snd (run_operation net json_loads py_repr self op w)) = (sent w ++ [r])%list
  /\ (forall resp v,
         net (List.length (sent w)) r = Reply resp ->
         is_error_status resp = false ->
         json_loads (text resp) = DecOk v ->
         run_operation net json_loads py_repr self op w
         = (Returns v, mkWorld (sent w ++ [r]) (stdout w)))
  /\ (forall e,
         try_result json_loads op (net (List.length (sent w)) r) = inr e ->
         run_operation net json_loads py_repr self op w
         = (Returns PNone,
            mkWorld (sent w ++ [r]) (stdout w ++ [error_line py_repr op e]))).
Proof.
  intros Hdec Hline r. rewrite run_operation_result.
  unfold operation_result. fold r. repeat split.
  - destruct (try_result _ _ _); reflexivity.
  - intros resp v Hnet Herr Hjson. unfold try_result.
    rewrite Hnet, Herr, Hdec, Hjson. reflexivity.
  - intros e He. rewrite He. unfold handler_lines. rewrite Hline.
    destruct op; try reflexivity; discriminate.
Qed.

(** X4.  listPublicPastes issues GET {baseUrl}/api/pastes/public with the
    parameters [page] and [size]; it returns the decoded body of a response
    whose status is outside 400..599 and whose body is valid JSON; on a
    failure it prints one line, [Error getting public pastes:] and the text
    of the exception, and returns None. *)
Theorem get_public_pastes_behaviour (page size : value) (w : World) :
  let r := mkRequest GET (api_base self ++ "/public")
             (Some [("page", page); ("size", size)]) None (session_headers self) in
  sent (snd (get_public_pastes net json_loads self page size w)) = (sent w ++ [r])%list
  /\ (forall resp v,
         net (List.length (sent w)) r = Reply resp ->
         is_error_status resp = false ->
         json_loads (text resp) = DecOk v ->
         get_public_pastes net json_loads self page size w
         = (Returns v, mkWorld (sent w ++ [r]) (stdout w)))
  /\ (forall e,
         try_result json_loads (OpPublic page size) (net (List.length (sent w)) r)
         = inr e ->
         get_public_pastes net json_loads self page size w
         = (Returns PNone,
            mkWorld (sent w ++ [r])
              (stdout w ++ ["Error getting public pastes: " ++ exc_str e]))).
Proof. exact (reading_operation_behaviour (OpPublic page size) w eq_refl eq_refl). Qed.

(** X5.  searchPastes issues GET {baseUrl}/api/pastes/search with the
    parameters [q], [page] and [size]; it returns the decoded body of a
    response whose status is outside 400..599 and whose body is valid JSON;
    on a failure it prints one line, [Error searching pastes:] and the text
    of the exception, and returns None. *)
Theorem search_pastes_behaviour (query page size : value) (w : World) :
  let r := mkRequest GET (api_base self ++ "/search")
             (Some [("q", query); ("page", page); ("size", size)]) None
             (session_headers self) in
  sent (snd (search_pastes net json_loads self query page size w))
  = (sent w ++ [r])%list
  /\ (forall resp v,
         net (List.length (sent w)) r = Reply resp ->
         is_error_status resp = false ->
         json_loads (text resp) = DecOk v ->
         search_pastes net json_loads self query page size w
         = (Returns v, mkWorld (sent w ++ [r]) (stdout w)))
  /\ (forall e,
         try_result json_loads (OpSearch query page size)
           (net (List.length (sent w)) r) = inr e ->
         search_pastes net json_loads self query page size w
         = (Returns PNone,
            mkWorld (sent w ++ [r])
              (stdout w ++ ["Error searching pastes: " ++ exc_str e]))).
Proof.
  exact (reading_operation_behaviour (OpSearch query page size) w eq_refl eq_refl).
Qed.


(** X7.  getStatistics issues GET {baseUrl}/api/pastes/stats without
    parameters; it returns the decoded body of a response whose status is
    outside 400..599 and whose body is valid JSON; on a failure it prints
    one line, [Error getting statistics:] and the text of the exception, and
    returns None. *)
Theorem get_statistics_behaviour (w : World) :
  let r := mkRequest GET (api_base self ++ "/stats") None None
             (session_headers self) in
  sent (snd (get_statistics net json_loads self w)) = (sent w ++ [r])%list
  /\ (forall resp v,
         net (List.length (sent w)) r = Reply resp ->
         is_error_status resp = false ->
         json_loads (text resp) = DecOk v ->
         get_statistics net json_loads self w
         = (Returns v, mkWorld (sent w ++ [r]) (stdout w)))
  /\ (forall e,
         try_result json_loads OpStatistics (net (List.length (sent w)) r) = inr e ->
         get_statistics net json_loads self w
         = (Returns PNone,
            mkWorld (sent w ++ [r])
              (stdout w ++ ["Error getting statistics: " ++ exc_str e]))).
Proof. exact (reading_operation_behaviour OpStatistics w eq_refl eq_refl). Qed.



End Discipline.

(** ** healthCheck *)

Section Health.

Variable net : nat -> Request -> Exchange.
Variable json_loads : string -> Decoded.
Variable self : SecurePasteClient.

(** X9.  healthCheck prints nothing, whatever happens.  When the response
    has a status outside 400..599 and its body decodes to a JSON value,
    healthCheck raises the [AttributeError] of the missing [get] if the
    value is not an object, an exception its [except] clause does not
    catch; if the value is an object, it returns whether the [status] of
    the object is the string "UP", False when there is no [status]. *)
Theorem health_check_silent_and_raises_on_non_object (w : World) :
  stdout (snd (health_check net json_loads self w)) = stdout w
  /\ (forall resp v,
        net (List.length (sent w)) (health_request self) = Reply resp ->
        is_error_status resp = false ->
        json_loads (text resp) = DecOk v ->
        (is_object v = false ->
         fst (health_check net json_loads self w)
         = Raises (AttributeError
                     ("'" ++ type_name v ++ "' object has no attribute 'get'")))
        /\ (forall d,
            v = PDict d ->
            fst (health_check net json_loads self w)
            = Returns (py_eq_str (dict_get_default "status" PNone d) "UP"))).
Proof.
  split.
  - rewrite health_check_run. cbv zeta.
    destruct (net _ _) as [e0|resp]; [reflexivity|].
    destruct (is_error_status resp); [reflexivity|].
    destruct (json_loads (text resp)) as [v|msg]; [|reflexivity].
    destruct (py_get v "status" PNone); reflexivity.
  - intros resp v Hnet Herr Hjson. rewrite health_check_run. cbv zeta.
    rewrite Hnet, Herr, Hjson. split.
    + intros Hobj. destruct v; simpl in Hobj |- *; try reflexivity. discriminate.
    + intros d ->. simpl. unfold dict_get_default.
      destruct (dict_get "status" d); reflexivity.
Qed.

End Health.

(** X9, witness: the health endpoint answers 200 with the body [[]], and
    with an object that has no status. *)
Lemma health_check_silent_and_raises_on_non_object_witness :
  fst (health_check (Sample.always (Sample.ok Sample.empty_array)) Sample.json_loads
         Sample.client world0)
  = Raises (AttributeError "'list' object has no attribute 'get'")
  /\ fst (health_check (Sample.always (Sample.ok Sample.stray_object))
            Sample.json_loads Sample.client world0)
     = Returns false.
Proof.
  split.
  - refine (proj1 (proj2 (health_check_silent_and_raises_on_non_object
              (Sample.always (Sample.ok Sample.empty_array)) Sample.json_loads
              Sample.client world0)
              (mkResponse 200 "OK" "http://localhost:8080/api/pastes/health"
                 (Sample.json_dumps Sample.empty_array))
              Sample.empty_array _ _ _) _); reflexivity.
  - refine (proj2 (proj2 (health_check_silent_and_raises_on_non_object
              (Sample.always (Sample.ok Sample.stray_object)) Sample.json_loads
              Sample.client world0)
              (mkResponse 200 "OK" "http://localhost:8080/api/pastes/health"
                 (Sample.json_dumps Sample.stray_object))
              Sample.stray_object _ _ _) (Sample.fields Sample.stray_object) _);
      reflexivity.
Defined.

(** ** [print_paste_info] *)

Lemma keeps_sent_ret {A} (a : A) : keeps_sent (ret a).
Proof. intros w. reflexivity. Qed.

Lemma keeps_sent_print (s : string) : keeps_sent (print s).
Proof. intros w. reflexivity. Qed.

Lemma keeps_sent_print_data (accepts : string -> bool) (s : string) :
  keeps_sent (print_data accepts s).
Proof. intros w. unfold print_data. destruct (accepts s); reflexivity. Qed.

Lemma keeps_sent_lift {A} (o : Outcome A) : keeps_sent (lift o).
Proof. intros w. reflexivity. Qed.

Lemma keeps_sent_bind {A B} (m : M A) (k : A -> M B) :
  keeps_sent m -> (forall a, keeps_sent (k a)) -> keeps_sent (bind m k).
Proof.
  intros Hm Hk w. unfold bind. specialize (Hm w).
  destruct (m w) as [[a|e] w1]; simpl in *.
  - rewrite Hk. exact Hm.
  - exact Hm.
Qed.

Lemma str_take_length (n : nat) (s : string) : (str_len (str_take n s) <= n)%nat.
Proof.
  revert n. induction s as [|c s IH]; intros n; simpl; [lia|].
  destruct (is_continuation c) eqn:Hc; simpl.
  - rewrite Hc. apply IH.
  - destruct n as [|n]; simpl; [lia|]. rewrite Hc. specialize (IH n). lia.
Qed.

Lemma str_take_prefix (n : nat) (s : string) : String.prefix (str_take n s) s = true.
Proof.
  revert n. induction s as [|c s IH]; intros n; simpl; [reflexivity|].
  destruct (is_continuation c); [|destruct n as [|n]; [reflexivity|]]; simpl;
    (destruct (ascii_dec c c) as [_|Hneq]; [apply IH | contradiction]).
Qed.

Lemma always_raises_raise {A B} (e : exn) (k : A -> M B) :
  always_raises (bind (lift (Raises e)) k).
Proof. intros w. exists e. reflexivity. Qed.

(** A block whose continuation raises in every case raises. *)
Lemma always_raises_bind {A B} (m : M A) (k : A -> M B) :
  (forall a, always_raises (k a)) -> always_raises (bind m k).
Proof.
  intros Hk w. unfold bind. destruct (m w) as [[a|e] w1].
  - apply Hk.
  - exists e. reflexivity.
Qed.

Lemma world_eta (w : World) : w = mkWorld (sent w) (stdout w ++ []).
Proof. rewrite app_nil_r. destruct w; reflexivity. Qed.

Lemma prints_within_ret : prints_within (ret tt) [].
Proof. intros w. apply world_eta. Qed.

Lemma prints_within_print (s : string) : prints_within (print s) [s].
Proof. intros w. reflexivity. Qed.

Lemma prints_within_print_data (accepts : string -> bool) (s : string) :
  prints_within (print_data accepts s) [s].
Proof.
  intros w. unfold print_data. destruct (accepts s); [reflexivity|].
  exists 0%nat. apply world_eta.
Qed.

Lemma prints_within_raise {A} (e : exn) (k : A -> M unit) (lines : list string) :
  prints_within (bind (lift (Raises e)) k) lines.
Proof. intros w. exists 0%nat. apply world_eta. Qed.

Lemma prints_within_bind (m k : M unit) (l1 l2 : list string) :
  prints_within m l1 -> prints_within k l2 ->
  prints_within (bind m (fun _ => k)) (l1 ++ l2).
Proof.
  intros Hm Hk w. specialize (Hm w). unfold bind.
  destruct (m w) as [[[]|e] w1].
  - subst w1. specialize (Hk (mkWorld (sent w) (stdout w ++ l1))).
    destruct (k _) as [[[]|e] w2]; cbn [sent stdout] in Hk.
    + rewrite Hk, <- app_assoc. reflexivity.
    + destruct Hk as [j Hk]. exists (List.length l1 + j)%nat.
      rewrite Hk, <- app_assoc, firstn_app_2. reflexivity.
  - destruct Hm as [j Hm].
    destruct (Nat.le_gt_cases j (List.length l1)) as [Hle|Hgt].
    + exists j. rewrite Hm, firstn_app.
      replace (j - List.length l1)%nat with 0%nat by lia.
      simpl. rewrite app_nil_r. reflexivity.
    + exists (List.length l1). rewrite Hm, firstn_app, Nat.sub_diag.
      simpl. rewrite app_nil_r, firstn_all, firstn_all2 by lia. reflexivity.
Qed.

Lemma prints_within_print_data_then (accepts : string -> bool) (s : string)
    (k : M unit) (l : list string) :
  prints_within k l -> prints_within (bind (print_data accepts s) (fun _ => k)) (s :: l).
Proof.
  intros Hk.
  exact (prints_within_bind _ _ [s] l (prints_within_print_data accepts s) Hk).
Qed.

Lemma prints_within_returns_then {A} (a : A) (k : A -> M unit) (l : list string) :
  prints_within (k a) l -> prints_within (bind (lift (Returns a)) k) l.
Proof. intros H. exact H. Qed.

(** [d[k]] in a block: the block goes on with the value, or it ends. *)
Lemma prints_within_subscript_then (d : dict) (key : string) (k : value -> M unit)
    (l : list string) :
  (forall x, dict_get key d = Some x -> prints_within (k x) l) ->
  prints_within (bind (lift (subscript (PDict d) key)) k) l.
Proof.
  intros Hk. cbn [subscript]. destruct (dict_get key d) as [x|].
  - apply prints_within_returns_then. apply Hk. reflexivity.
  - apply prints_within_raise.
Qed.

Lemma py_get_dict (d : dict) (key : string) (default : value) :
  py_get (PDict d) key default = Returns (dict_get_default key default d).
Proof. unfold py_get, dict_get_default. destruct (dict_get key d); reflexivity. Qed.

Lemma dict_get_default_some (d : dict) (key : string) (default x : value) :
  dict_get key d = Some x -> dict_get_default key default d = x.
Proof. intros H. unfold dict_get_default. rewrite H. reflexivity. Qed.

Section PasteInfo.

Variable py_repr : value -> string.
Variable accepts : string -> bool.

Ltac keeps :=
  repeat first
    [ apply keeps_sent_ret
    | apply keeps_sent_print
    | apply keeps_sent_print_data
    | apply keeps_sent_lift
    | apply keeps_sent_bind; [|intros ?]
    | match goal with
      | |- keeps_sent (if ?c then _ else _) => destruct c
      end ].

Lemma print_paste_info_keeps_sent (paste : value) :
  keeps_sent (print_paste_info py_repr accepts paste).
Proof. unfold print_paste_info. keeps. Qed.

(** X10.  [print_paste_info] never makes a request, however it ends, and
    for a value that is false in a condition (None, an empty dict, ...) it
    prints nothing and returns. *)
Theorem print_paste_info_makes_no_request (paste : value) (w : World) :
  sent (snd (print_paste_info py_repr accepts paste w)) = sent w
  /\ (truthy paste = false -> print_paste_info py_repr accepts paste w = (Returns tt, w)).
Proof.
  split.
  - revert w. change (keeps_sent (print_paste_info py_repr accepts paste)).
    unfold print_paste_info. keeps.
  - intros Hfalsy. unfold print_paste_info. rewrite Hfalsy. reflexivity.
Qed.

(** The statements of a block, down to the one that raises. *)
Ltac raising :=
  repeat first
    [ apply always_raises_raise
    | apply always_raises_bind; intros ?; cbv beta ].

(** On a dict that lacks a key it indexes, [print_paste_info] raises. *)
Lemma print_paste_info_needs_keys (d : dict) (k : string) :
  truthy (PDict d) = true ->
  first_missing indexed_paste_keys d = Some k ->
  always_raises (print_paste_info py_repr accepts (PDict d)).
Proof.
  intros Htruthy Hk. unfold print_paste_info. rewrite Htruthy. cbn [negb].
  revert Hk. unfold first_missing, indexed_paste_keys, dict_has. cbn [find].
  cbv [subscript].
  destruct (dict_get "id" d); cbn [negb]; [|intros _; raising].
  destruct (dict_get "title" d); cbn [negb]; [|intros _; raising].
  destruct (dict_get "visibility" d); cbn [negb]; [|intros _; raising].
  destruct (dict_get "viewCount" d); cbn [negb]; [|intros _; raising].
  destruct (dict_get "createdAt" d); cbn [negb]; [|intros _; raising].
  destruct (dict_get "content" d); cbn [negb]; [discriminate|intros _; raising].
Qed.

(** The steps of a block that prints, for [prints_within]. *)
Ltac printing :=
  repeat
    match goal with
    | |- prints_within (bind (print_data _ _) _) (_ :: _) =>
        apply prints_within_print_data_then
    | |- prints_within (bind (lift (py_get (PDict _) _ _)) _) _ =>
        rewrite py_get_dict; apply prints_within_returns_then; cbv beta
    | |- prints_within (bind (lift (subscript (PDict ?d) ?key)) _) _ =>
        apply prints_within_subscript_then;
        let x := fresh "x" in
        let Hx := fresh "Hx" in
        intros x Hx; cbv beta;
        rewrite ?(dict_get_default_some d key _ x Hx)
    end.

(** On a non-empty dict, [print_paste_info] prints the lines of
    [paste_info_lines], or the first few of them when it raises. *)
Lemma print_paste_info_prints (d : dict) :
  truthy (PDict d) = true ->
  prints_within (print_paste_info py_repr accepts (PDict d))
    (paste_info_lines py_repr d).
Proof.
  intros Htruthy. unfold print_paste_info, paste_info_lines. rewrite Htruthy.
  cbn [negb]. cbv zeta. cbn [app]. printing.
  apply prints_within_bind.
  { destruct (truthy (dict_get_default "expiresAt" PNone d)).
    - printing. apply prints_within_print_data.
    - apply prints_within_ret. }
  printing.
  apply prints_within_bind.
  { destruct (truthy (dict_get_default "passwordProtected" PNone d)).
    - apply prints_within_print.
    - apply prints_within_ret. }
  printing.
  match goal with
  | |- context [slice_upto ?content 100] => destruct content
  end; cbn [slice_upto value_take];
    try apply prints_within_raise;
    apply prints_within_returns_then; printing; apply prints_within_print.
Qed.

(** X11.  [print_paste_info] reads [paste['id']] before it prints
    anything.  On a value that is true in a condition and is not a dict it
    raises [TypeError], on a dict without [id] it raises [KeyError('id')],
    and on a dict whose id makes a line that standard output cannot encode
    it raises [UnicodeEncodeError], in the three cases with nothing
    printed.  On a dict that lacks one of the keys id, title, visibility,
    viewCount, createdAt, content it does not return normally. *)
Theorem print_paste_info_missing_key (paste : value) (w : World) :
  truthy paste = true ->
  (is_object paste = false ->
   exists msg, print_paste_info py_repr accepts paste w = (Raises (TypeError msg), w))
  /\ (forall d,
      paste = PDict d -> dict_get "id" d = None ->
      print_paste_info py_repr accepts paste w = (Raises (KeyError "id"), w))
  /\ (forall d id,
      paste = PDict d -> dict_get "id" d = Some id ->
      accepts ("ID: " ++ py_str py_repr id) = false ->
      print_paste_info py_repr accepts paste w
      = (Raises (UnicodeEncodeError ("ID: " ++ py_str py_repr id)), w))
  /\ (forall d k,
      paste = PDict d -> first_missing indexed_paste_keys d = Some k ->
      exists e, fst (print_paste_info py_repr accepts paste w) = Raises e).
Proof.
  intros Htruthy. split; [|split; [|split]].
  - intros Hobj. unfold print_paste_info. rewrite Htruthy.
    destruct paste; simpl in Hobj; try discriminate; eexists; reflexivity.
  - intros d -> Hid. unfold print_paste_info. rewrite Htruthy.
    unfold bind, lift. simpl. rewrite Hid. reflexivity.
  - intros d id -> Hid Hrefused. unfold print_paste_info. rewrite Htruthy.
    cbn [negb subscript]. rewrite Hid. unfold bind, lift, print_data.
    cbv beta iota. rewrite Hrefused. reflexivity.
  - intros d k -> Hk. exact (print_paste_info_needs_keys d k Htruthy Hk w).
Qed.

(** X12.  When [print_paste_info] returns normally on a non-empty dict,
    the dict has the six keys that are indexed, no request has been made
    and between 9 and 11 lines have been printed.  A paste without a
    language is shown with [Language: N/A], one without an author with
    [Author: Anonymous]; the last line is a rule of 50 dashes; a content
    that is a string is shown by its first 100 characters at most, followed
    by three dots. *)
Theorem print_paste_info_output (d : dict) (w : World) :
  truthy (PDict d) = true ->
  fst (print_paste_info py_repr accepts (PDict d) w) = Returns tt ->
  first_missing indexed_paste_keys d = None
  /\ exists lines,
    snd (print_paste_info py_repr accepts (PDict d) w)
    = mkWorld (sent w) (stdout w ++ lines)
    /\ (9 <= List.length lines <= 11)%nat
    /\ (dict_get "language" d = None -> nth_error lines 2 = Some "Language: N/A")
    /\ (dict_get "authorName" d = None -> nth_error lines 3 = Some "Author: Anonymous")
    /\ last lines "" = str_repeat "-" 50
    /\ (forall s,
          dict_get "content" d = Some (PStr s) ->
          In ("Content Preview: " ++ str_take 100 s ++ "...") lines
          /\ (str_len (str_take 100 s) <= 100)%nat
          /\ String.prefix (str_take 100 s) s = true).
Proof.
  intros Htruthy Hreturns. split.
  { destruct (first_missing indexed_paste_keys d) as [k|] eqn:Hk; [|reflexivity].
    destruct (print_paste_info_needs_keys d k Htruthy Hk w) as [e He].
    rewrite He in Hreturns. discriminate. }
  exists (paste_info_lines py_repr d). split.
  { pose proof (print_paste_info_prints d Htruthy w) as H.
    destruct (print_paste_info py_repr accepts (PDict d) w) as [[[]|e] w'];
      [exact H|discriminate]. }
  unfold paste_info_lines. cbv zeta. repeat split.
  - destruct (truthy (dict_get_default "expiresAt" PNone d)),
      (truthy (dict_get_default "passwordProtected" PNone d)); simpl; lia.
  - destruct (truthy (dict_get_default "expiresAt" PNone d)),
      (truthy (dict_get_default "passwordProtected" PNone d)); simpl; lia.
  - intros Hlang. cbn [app nth_error]. unfold dict_get_default. rewrite Hlang.
    reflexivity.
  - intros Hauthor. cbn [app nth_error]. unfold dict_get_default. rewrite Hauthor.
    reflexivity.
  - destruct (truthy (dict_get_default "expiresAt" PNone d)),
      (truthy (dict_get_default "passwordProtected" PNone d)); reflexivity.
  - apply in_or_app. right. apply in_or_app. right. apply in_or_app. right.
    left. unfold dict_get_default. rewrite H. reflexivity.
  - apply str_take_length.
  - apply str_take_prefix.
Qed.


End PasteInfo.

(** ** The requests of [main] *)










Lemma keeps_sent_for_each {A} (items : list A) (body : A -> M unit) :
  (forall x, keeps_sent (body x)) -> keeps_sent (for_each items body).
Proof.
  intros Hbody. induction items as [|x items IH]; simpl.
  - apply keeps_sent_ret.
  - apply keeps_sent_bind; [apply Hbody | intros _; exact IH].
Qed.

(** The steps of a block that makes no request. *)
Ltac keeps_block :=
  repeat
    match goal with
    | |- keeps_sent (bind _ _) => apply keeps_sent_bind; [|intros ?; cbv beta]
    | |- keeps_sent (ret _) => apply keeps_sent_ret
    | |- keeps_sent (print _) => apply keeps_sent_print
    | |- keeps_sent (print_data _ _) => apply keeps_sent_print_data
    | |- keeps_sent (lift _) => apply keeps_sent_lift
    | |- keeps_sent (for_each _ _) => apply keeps_sent_for_each; intros ?; cbv beta
    | |- keeps_sent (print_paste_info _ _ _) => apply print_paste_info_keeps_sent
    | |- keeps_sent (has_content _) => unfold has_content
    | |- keeps_sent (if ?c then _ else _) => destruct c
    end.

Lemma follows_keeps {A} (m : M A) (n : nat) :
  keeps_sent m -> follows m n [] (fun _ => True).
Proof.
  intros Hm w Hw. specialize (Hm w). destruct (m w) as [[a|e] w']; simpl in Hm.
  - rewrite app_nil_r. split; [exact Hm|exact I].
  - exists 0%nat. simpl. rewrite app_nil_r. exact Hm.
Qed.

Lemma follows_bind {A B} (m : M A) (k : A -> M B) (n : nat) (r1 r2 : list Request)
    (P : A -> Prop) (Q : B -> Prop) :
  follows m n r1 P ->
  (forall a, P a -> follows (k a) (n + List.length r1) r2 Q) ->
  follows (bind m k) n (r1 ++ r2) Q.
Proof.
  intros Hm Hk w Hw. specialize (Hm w Hw). unfold bind.
  destruct (m w) as [[a|e] w1].
  - destruct Hm as [Hsent HP].
    assert (Hw1 : List.length (sent w1) = (n + List.length r1)%nat).
    { rewrite Hsent, length_app, Hw. reflexivity. }
    specialize (Hk a HP w1 Hw1). destruct (k a w1) as [[b|e] w2].
    + destruct Hk as [Hsent2 HQ]. split; [|exact HQ].
      rewrite Hsent2, Hsent, app_assoc. reflexivity.
    + destruct Hk as [j Hsent2]. exists (List.length r1 + j)%nat.
      rewrite Hsent2, Hsent, <- app_assoc, firstn_app_2. reflexivity.
  - destruct Hm as [j Hsent].
    destruct (Nat.le_gt_cases j (List.length r1)) as [Hle|Hgt].
    + exists j. rewrite Hsent, firstn_app.
      replace (j - List.length r1)%nat with 0%nat by lia.
      simpl. rewrite app_nil_r. reflexivity.
    + exists (List.length r1). rewrite Hsent, firstn_app, Nat.sub_diag.
      simpl. rewrite app_nil_r, firstn_all, firstn_all2 by lia. reflexivity.
Qed.

Lemma follows_keeps_then {A B} (m : M A) (k : A -> M B) (n : nat)
    (reqs : list Request) (Q : B -> Prop) :
  keeps_sent m -> (forall a, follows (k a) n reqs Q) -> follows (bind m k) n reqs Q.
Proof.
  intros Hm Hk.
  apply (follows_bind m k n [] reqs (fun _ => True) Q (follows_keeps m n Hm)).
  intros a _. simpl. rewrite Nat.add_0_r. apply Hk.
Qed.

Lemma follows_step {B} (m : M unit) (k : M B) (n : nat) (r1 r2 reqs : list Request)
    (Q : B -> Prop) :
  follows m n r1 (fun _ => True) ->
  follows k (n + List.length r1) r2 Q ->
  reqs = (r1 ++ r2)%list ->
  follows (bind m (fun _ => k)) n reqs Q.
Proof.
  intros Hm Hk ->. apply (follows_bind m (fun _ => k) n r1 r2 (fun _ => True) Q Hm).
  intros _ _. exact Hk.
Qed.

Lemma follows_lift_then {A B} (a : A) (k : A -> M B) (n : nat) (reqs : list Request)
    (Q : B -> Prop) :
  follows (k a) n reqs Q -> follows (bind (lift (Returns a)) k) n reqs Q.
Proof. intros H. exact H. Qed.

Lemma follows_raise {A B} (e : exn) (k : A -> M B) (n : nat) (reqs : list Request)
    (Q : B -> Prop) :
  follows (bind (lift (Raises e)) k) n reqs Q.
Proof.
  intros w Hw. unfold bind, lift. exists 0%nat. simpl. rewrite app_nil_r.
  reflexivity.
Qed.

(** The steps of a block between two requests, for [follows]. *)
Ltac tracing :=
  repeat
    match goal with
    | |- follows _ _ [] _ => apply follows_keeps; keeps_block
    | |- follows (bind (print _) _) _ _ _ =>
        apply follows_keeps_then; [apply keeps_sent_print | intros _]
    | |- follows (bind (print_paste_info _ _ _) _) _ _ _ =>
        apply follows_keeps_then; [apply print_paste_info_keeps_sent | intros _]
    | |- follows (bind (if _ then _ else _) _) _ _ _ =>
        apply follows_keeps_then; [keeps_block | intros _]
    end.

Section Trace.

Variable net : nat -> Request -> Exchange.
Variable json_loads : string -> Decoded.
Variable py_repr : value -> string.
Variable accepts : string -> bool.
Variable client : SecurePasteClient.

(** An operation makes its request and returns the value that the exchange
    determines. *)
Lemma follows_operation_then {B} (op : operation) (k : value -> M B) (n : nat)
    (reqs : list Request) (Q : B -> Prop) :
  follows (k (returned_value json_loads op (net n (request_of py_repr client op))))
    (S n) reqs Q ->
  follows (bind (run_operation net json_loads py_repr client op) k) n
    (request_of py_repr client op :: reqs) Q.
Proof.
  intros Hk.
  apply (follows_bind _ k n [request_of py_repr client op] reqs
           (fun v => v = returned_value json_loads op
                          (net n (request_of py_repr client op))) Q).
  - intros w Hw. rewrite run_operation_result.
    unfold operation_result, returned_value. rewrite Hw.
    destruct (try_result _ _ _); split; reflexivity.
  - intros v ->. simpl. rewrite Nat.add_1_r. exact Hk.
Qed.

Lemma follows_delete_then {B} (paste_id : value) (k : bool -> M B) (n : nat)
    (reqs : list Request) (Q : B -> Prop) :
  (forall deleted, follows (k deleted) (S n) reqs Q) ->
  follows (bind (delete_paste net py_repr client paste_id) k) n
    (request_of py_repr client (OpDelete paste_id) :: reqs) Q.
Proof.
  intros Hk.
  apply (follows_bind _ k n [request_of py_repr client (OpDelete paste_id)] reqs
           (fun _ => True) Q).
  - intros w Hw. rewrite delete_paste_run. cbv zeta.
    destruct (net _ _) as [e|resp]; [split; [reflexivity|exact I]|].
    destruct (is_error_status resp); split; try reflexivity; exact I.
  - intros deleted _. simpl. rewrite Nat.add_1_r. exact (Hk deleted).
Qed.

(** The next statement is a call of an operation; what it returns does not
    matter for the requests that follow. *)
Ltac calling op :=
  apply (follows_operation_then op);
  match goal with
  | |- context [returned_value ?jl ?o ?ex] =>
      generalize (returned_value jl o ex); intros ?; cbv beta
  end;
  tracing.

Lemma main_retrieve_follows (simple_paste_id protected_paste_id : value) :
  follows (main_retrieve net json_loads py_repr accepts client simple_paste_id
             protected_paste_id) 4
    [request_of py_repr client (OpGet simple_paste_id PNone);
     request_of py_repr client (OpGet protected_paste_id PNone);
     request_of py_repr client (OpGet protected_paste_id (PStr "secret123"))]
    (fun _ => True).
Proof.
  unfold main_retrieve. tracing.
  calling (OpGet simple_paste_id PNone).
  calling (OpGet protected_paste_id PNone).
  calling (OpGet protected_paste_id (PStr "secret123")).
Qed.

Lemma main_update_follows (simple_paste_id : value) :
  follows (main_update net json_loads py_repr accepts client simple_paste_id) 7
    [request_of py_repr client (OpUpdate simple_paste_id main_update_fields)]
    (fun _ => True).
Proof.
  unfold main_update. tracing.
  calling (OpUpdate simple_paste_id main_update_fields).
Qed.

Lemma main_search_follows :
  follows (main_search net json_loads py_repr accepts client) 8
    [request_of py_repr client (OpSearch (PStr "Python") (PInt 0) (PInt 5))]
    (fun _ => True).
Proof.
  unfold main_search. tracing.
  calling (OpSearch (PStr "Python") (PInt 0) (PInt 5)).
Qed.

Lemma main_by_language_follows :
  follows (main_by_language net json_loads py_repr client) 9
    [request_of py_repr client (OpLanguage (PStr "javascript") (PInt 0) (PInt 3))]
    (fun _ => True).
Proof.
  unfold main_by_language. tracing.
  calling (OpLanguage (PStr "javascript") (PInt 0) (PInt 3)).
Qed.

Lemma main_public_follows :
  follows (main_public net json_loads py_repr accepts client) 10
    [request_of py_repr client (OpPublic (PInt 0) (PInt 5))] (fun _ => True).
Proof.
  unfold main_public. tracing.
  calling (OpPublic (PInt 0) (PInt 5)).
Qed.

Lemma main_statistics_follows :
  follows (main_statistics net json_loads py_repr accepts client) 11
    [request_of py_repr client OpStatistics] (fun _ => True).
Proof.
  unfold main_statistics. tracing.
  calling OpStatistics.
Qed.

Lemma main_cleanup_follows (simple_paste_id protected_paste_id : value) :
  follows (main_cleanup net py_repr client simple_paste_id protected_paste_id) 12
    [request_of py_repr client (OpDelete simple_paste_id);
     request_of py_repr client (OpDelete protected_paste_id)]
    (fun _ => True).
Proof.
  unfold main_cleanup. tracing.
  apply follows_delete_then. intros deleted. cbv beta. tracing.
  apply follows_delete_then. intros deleted'. cbv beta. tracing.
Qed.

Lemma main_steps_5_to_13_follow (simple_paste_id protected_paste_id : value) :
  follows
    (main_retrieve net json_loads py_repr accepts client simple_paste_id protected_paste_id ;;
     main_update net json_loads py_repr accepts client simple_paste_id ;;
     main_search net json_loads py_repr accepts client ;;
     main_by_language net json_loads py_repr client ;;
     main_public net json_loads py_repr accepts client ;;
     main_statistics net json_loads py_repr accepts client ;;
     main_cleanup net py_repr client simple_paste_id protected_paste_id)
    4 (tl (main_requests_from_expiring py_repr client simple_paste_id
             protected_paste_id))
    (fun _ => True).
Proof.
  eapply follows_step;
    [apply (main_retrieve_follows simple_paste_id protected_paste_id) | | reflexivity].
  eapply follows_step; [apply (main_update_follows simple_paste_id) | | reflexivity].
  eapply follows_step; [apply main_search_follows | | reflexivity].
  eapply follows_step; [apply main_by_language_follows | | reflexivity].
  eapply follows_step; [apply main_public_follows | | reflexivity].
  eapply follows_step; [apply main_statistics_follows | | reflexivity].
  apply main_cleanup_follows.
Qed.

Lemma main_from_expiring_follows (simple_paste_id protected_paste_id : value) :
  follows (main_from_expiring net json_loads py_repr accepts client simple_paste_id
             protected_paste_id) 3
    (main_requests_from_expiring py_repr client simple_paste_id protected_paste_id)
    (fun _ => True).
Proof.
  unfold main_from_expiring. tracing.
  unfold main_requests_from_expiring. cbn [map].
  calling expiring_creation.
  apply main_steps_5_to_13_follow.
Qed.

Lemma main_from_protected_follows (simple_paste_id : value) :
  follows (main_from_protected net json_loads py_repr accepts client simple_paste_id) 2
    (request_of py_repr client protected_creation
     :: (if truthy (second_created net json_loads py_repr client)
         then main_requests_from_expiring py_repr client simple_paste_id
                (paste_id_of (second_created net json_loads py_repr client))
         else []))
    (fun _ => True).
Proof.
  unfold main_from_protected. tracing.
  apply (follows_operation_then protected_creation).
  fold (second_created net json_loads py_repr client).
  generalize (second_created net json_loads py_repr client). intros v. cbv beta.
  destruct (truthy v); cbv iota; tracing.
  destruct (subscript v "id") as [id|e] eqn:Hid.
  - replace (paste_id_of v) with id by (unfold paste_id_of; rewrite Hid; reflexivity).
    apply follows_lift_then. apply main_from_expiring_follows.
  - apply follows_raise.
Qed.

Lemma main_from_simple_follows :
  follows (main_from_simple net json_loads py_repr accepts client) 1
    (request_of py_repr client simple_creation
     :: (if truthy (first_created net json_loads py_repr client)
         then request_of py_repr client protected_creation
              :: (if truthy (second_created net json_loads py_repr client)
                  then main_requests_from_expiring py_repr client
                         (paste_id_of (first_created net json_loads py_repr client))
                         (paste_id_of (second_created net json_loads py_repr client))
                  else [])
         else []))
    (fun _ => True).
Proof.
  unfold main_from_simple. tracing.
  apply (follows_operation_then simple_creation).
  fold (first_created net json_loads py_repr client).
  generalize (first_created net json_loads py_repr client). intros v. cbv beta.
  destruct (truthy v); cbv iota; tracing.
  destruct (subscript v "id") as [id|e] eqn:Hid.
  - replace (paste_id_of v) with id by (unfold paste_id_of; rewrite Hid; reflexivity).
    apply follows_lift_then. apply main_from_protected_follows.
  - apply follows_raise.
Qed.

End Trace.

Section Creations.

Variable net : nat -> Request -> Exchange.
Variable json_loads : string -> Decoded.
Variable py_repr : value -> string.
Variable accepts : string -> bool.
Variable client : SecurePasteClient.






End Creations.

Section MainRequests.

Variable net : nat -> Request -> Exchange.
Variable json_loads : string -> Decoded.
Variable py_repr : value -> string.
Variable accepts : string -> bool.



(** The requests of [main], however it ends. *)
Lemma main_follows :
  match main net json_loads py_repr accepts world0 with
  | (Returns _, w) => sent w = main_requests net json_loads py_repr
  | (Raises _, w) =>
      exists k, (1 <= k)%nat
                /\ sent w = firstn k (main_requests net json_loads py_repr)
  end.
Proof.
  rewrite main_run. unfold main_requests. cbv zeta.
  pose proof (health_check_sends net json_loads banner_world) as Hsent.
  destruct (health_check net json_loads default_client banner_world)
    as [[[|]|e] w]; simpl in Hsent; cbv beta iota.
  - assert (Hlen : List.length
                     (sent (mkWorld (sent w) (stdout w ++ ["✓ Service is healthy"])))
                   = 1%nat) by (cbn [sent]; rewrite Hsent; reflexivity).
    pose proof (main_from_simple_follows net json_loads py_repr accepts default_client
                  _ Hlen) as H.
    destruct (main_from_simple _ _ _ _ _) as [[a|e] w'].
    + destruct H as [H _]. cbn [sent] in H. rewrite Hsent in H. exact H.
    + destruct H as [k H]. exists (S k). split; [lia|].
      cbn [sent] in H. rewrite Hsent in H. exact H.
  - exists 1%nat. split; [lia|]. cbn [sent firstn]. exact Hsent.
  - exists 1%nat. split; [lia|]. cbn [sent firstn]. exact Hsent.
Qed.


(** X15.  Whatever the service answers and however [main] ends, the
    requests it has made are the first few of one list, in that order, and
    the health request is always among them: the health request; the first
    creation; if that returned something true in a condition, the second
    creation; and, if that did too, the third creation, the three
    retrievals, the update, the three listings, the statistics and the two
    deletions, where the retrievals, the update and the deletions use the
    ids read from the first two pastes created.  When [main] returns
    normally it has made all the requests of the list. *)
Theorem main_request_sequence :
  (exists k,
      (1 <= k)%nat
      /\ sent (snd (main net json_loads py_repr accepts world0))
         = firstn k (main_requests net json_loads py_repr))
  /\ (fst (main net json_loads py_repr accepts world0) = Returns tt ->
      sent (snd (main net json_loads py_repr accepts world0))
      = main_requests net json_loads py_repr).
Proof.
  pose proof main_follows as H.
  destruct (main net json_loads py_repr accepts world0) as [[[]|e] w]; simpl.
  - split; [|intros _; exact H].
    exists (List.length (main_requests net json_loads py_repr)).
    split; [unfold main_requests; simpl; lia|].
    rewrite firstn_all. exact H.
  - split; [exact H|discriminate].
Qed.

End MainRequests.

(** ** The further properties against the sample service *)

(** X2, witness: a search. *)
Lemma operation_makes_one_request_witness :
  exists r,
    sent (snd (run_operation (Sample.always Sample.not_found) Sample.json_loads
                 Sample.py_repr Sample.client
                 (OpSearch (PStr "Python") (PInt 0) (PInt 5)) world0)) = [r]
    /\ req_method r = GET.
Proof.
  destruct (operation_makes_one_request (Sample.always Sample.not_found)
              Sample.json_loads Sample.py_repr Sample.client
              (OpSearch (PStr "Python") (PInt 0) (PInt 5)) world0)
    as (r & Hsent & _ & _ & Hget & _).
  exists r. split; [exact Hsent|]. apply Hget. reflexivity.
Defined.


(** X4, witness: a page of public pastes, and a server error. *)
Lemma get_public_pastes_behaviour_witness :
  fst (get_public_pastes (Sample.always (Sample.ok Sample.page)) Sample.json_loads
         Sample.client (PInt 0) (PInt 5) world0) = Returns Sample.page
  /\ stdout (snd (get_public_pastes (Sample.always Sample.server_error)
                    Sample.json_loads Sample.client (PInt 0) (PInt 5) world0))
     = ["Error getting public pastes: 500 Server Error: Internal Server Error for url: http://localhost:8080/api/pastes/public"].
Proof.
  split.
  - rewrite (proj1 (proj2 (get_public_pastes_behaviour
               (Sample.always (Sample.ok Sample.page)) Sample.json_loads
               Sample.py_repr Sample.client (PInt 0) (PInt 5) world0))
               (mkResponse 200 "OK" "http://localhost:8080/api/pastes/public"
                  (Sample.json_dumps Sample.page))
               Sample.page eq_refl eq_refl eq_refl).
    reflexivity.
  - rewrite (proj2 (proj2 (get_public_pastes_behaviour
               (Sample.always Sample.server_error) Sample.json_loads
               Sample.py_repr Sample.client (PInt 0) (PInt 5) world0))
               (http_error_of
                  (mkResponse 500 "Internal Server Error"
                     "http://localhost:8080/api/pastes/public" "boom"))
               eq_refl).
    reflexivity.
Defined.

(** X5, witness: a page of search results, and a server error. *)
Lemma search_pastes_behaviour_witness :
  fst (search_pastes (Sample.always (Sample.ok Sample.page)) Sample.json_loads
         Sample.client (PStr "Python") (PInt 0) (PInt 5) world0)
  = Returns Sample.page
  /\ stdout (snd (search_pastes (Sample.always Sample.server_error)
                    Sample.json_loads Sample.client (PStr "Python") (PInt 0)
                    (PInt 5) world0))
     = ["Error searching pastes: 500 Server Error: Internal Server Error for url: http://localhost:8080/api/pastes/search"].
Proof.
  split.
  - rewrite (proj1 (proj2 (search_pastes_behaviour
               (Sample.always (Sample.ok Sample.page)) Sample.json_loads
               Sample.py_repr Sample.client (PStr "Python") (PInt 0) (PInt 5) world0))
               (mkResponse 200 "OK" "http://localhost:8080/api/pastes/search"
                  (Sample.json_dumps Sample.page))
               Sample.page eq_refl eq_refl eq_refl).
    reflexivity.
  - rewrite (proj2 (proj2 (search_pastes_behaviour
               (Sample.always Sample.server_error) Sample.json_loads
               Sample.py_repr Sample.client (PStr "Python") (PInt 0) (PInt 5) world0))
               (http_error_of
                  (mkResponse 500 "Internal Server Error"
                     "http://localhost:8080/api/pastes/search" "boom"))
               eq_refl).
    reflexivity.
Defined.


(** X7, witness: the statistics, and a server error. *)
Lemma get_statistics_behaviour_witness :
  fst (get_statistics (Sample.always (Sample.ok Sample.statistics))
         Sample.json_loads Sample.client world0)
  = Returns Sample.statistics
  /\ stdout (snd (get_statistics (Sample.always Sample.server_error)
                    Sample.json_loads Sample.client world0))
     = ["Error getting statistics: 500 Server Error: Internal Server Error for url: http://localhost:8080/api/pastes/stats"].
Proof.
  split.
  - rewrite (proj1 (proj2 (get_statistics_behaviour
               (Sample.always (Sample.ok Sample.statistics)) Sample.json_loads
               Sample.py_repr Sample.client world0))
               (mkResponse 200 "OK" "http://localhost:8080/api/pastes/stats"
                  (Sample.json_dumps Sample.statistics))
               Sample.statistics eq_refl eq_refl eq_refl).
    reflexivity.
  - rewrite (proj2 (proj2 (get_statistics_behaviour
               (Sample.always Sample.server_error) Sample.json_loads
               Sample.py_repr Sample.client world0))
               (http_error_of
                  (mkResponse 500 "Internal Server Error"
                     "http://localhost:8080/api/pastes/stats" "boom"))
               eq_refl).
    reflexivity.
Defined.


(** X10, witness: None, after a failed creation. *)
Lemma print_paste_info_makes_no_request_witness :
  print_paste_info Sample.py_repr Sample.accepts PNone world0 = (Returns tt, world0).
Proof.
  apply (proj2 (print_paste_info_makes_no_request Sample.py_repr Sample.accepts PNone world0)).
  reflexivity.
Defined.

(** X11, witness: an object without an id, a string, and an object whose
    id is a lone surrogate. *)
Lemma print_paste_info_missing_key_witness :
  print_paste_info Sample.py_repr Sample.accepts Sample.stray_object world0
  = (Raises (KeyError "id"), world0)
  /\ (exists msg,
       print_paste_info Sample.py_repr Sample.accepts (PStr "created") world0
       = (Raises (TypeError msg), world0))
  /\ print_paste_info Sample.py_repr Sample.accepts
       (PDict [("id", PStr Sample.lone_surrogate)]) world0
     = (Raises (UnicodeEncodeError ("ID: " ++ Sample.lone_surrogate)), world0).
Proof.
  split; [|split].
  - apply (proj1 (proj2 (print_paste_info_missing_key Sample.py_repr Sample.accepts
                           Sample.stray_object world0 eq_refl))
             (Sample.fields Sample.stray_object));
      reflexivity.
  - apply (proj1 (print_paste_info_missing_key Sample.py_repr Sample.accepts
                    (PStr "created") world0 eq_refl)).
    reflexivity.
  - apply (proj1 (proj2 (proj2 (print_paste_info_missing_key Sample.py_repr
                                  Sample.accepts
                                  (PDict [("id", PStr Sample.lone_surrogate)])
                                  world0 eq_refl)))
             [("id", PStr Sample.lone_surrogate)] (PStr Sample.lone_surrogate));
      reflexivity.
Defined.

(** X12, witness: the simple paste. *)
Lemma print_paste_info_output_witness :
  exists lines,
    snd (print_paste_info Sample.py_repr Sample.accepts Sample.simple_paste world0)
    = mkWorld [] lines
    /\ (9 <= List.length lines <= 11)%nat.
Proof.
  destruct (print_paste_info_output Sample.py_repr Sample.accepts
              (Sample.fields Sample.simple_paste) world0 eq_refl eq_refl)
    as (_ & lines & Hrun & Hlen & _).
  exists lines. split; [exact Hrun | exact Hlen].
Defined.



(** X15, witness: the sample service, against which [main] returns
    normally; the ids are those of its first two pastes. *)
Lemma main_request_sequence_witness :
  sent (snd (main (Sample.scripted Sample.healthy_script) Sample.json_loads
               Sample.py_repr Sample.accepts world0))
  = health_request default_client
    :: request_of Sample.py_repr default_client simple_creation
    :: request_of Sample.py_repr default_client protected_creation
    :: main_requests_from_expiring Sample.py_repr default_client
         (PStr "a1b2c3") (PStr "d4e5f6").
Proof.
  rewrite (proj2 (main_request_sequence (Sample.scripted Sample.healthy_script)
                    Sample.json_loads Sample.py_repr Sample.accepts));
    reflexivity.
Defined.
